(** * CodeGenie: the conversation store, the chat controller and the AI responder

    A shallow embedding of [app.py] and [llm.py].

    - Python objects read from and written to [chats.json] are values of
      [json]; a Python [dict] is an association list in insertion order
      whose keys are pairwise distinct ([PyDict]).
    - The script's effects (the two files, the wall clock, Streamlit's
      session state and the messages it shows) are threaded through a
      small state monad whose computations end with a value, with a
      Python exception, or with Streamlit's rerun signal.
    - The libraries the script calls are modelled by what they hand back
      to the script: [json.load] by the value it decodes (or the
      exception it raises), [datetime.now()] by a clock that is
      read once per call, the Gemini client by the reply or the
      exception of one call. *)

From Stdlib Require Import String Ascii List Arith NArith Lia Bool.
From Stdlib Require Import Permutation Sorted.
From Stdlib Require Import DecimalString DecimalNat.
Import ListNotations.
Open Scope string_scope.

(** ** Python values *)

#[warnings="-register-all"]
Inductive json : Type :=
| JNull
| JBool (b : bool)
| JNum (literal : string)
| JStr (s : string)
| JList (items : list json)
| JDict (entries : list (string * json)).

(** [isinstance(content, list)] *)
Definition is_list (v : json) : bool :=
  match v with JList _ => true | _ => false end.

Inductive exn : Type :=
| JSONDecodeError
| AttributeError
| EOFError
| KeyError (key : string)
| IndexError
| UnicodeDecodeError
| RecursionError
| ValueError.

(** ** Python dictionaries, in insertion order *)

Definition dict : Type := list (string * json).

Module PyDict.

Definition keys (d : dict) : list string := map fst d.

(** [k in d] *)
Fixpoint contains (k : string) (d : dict) : bool :=
  match d with
  | [] => false
  | (k', _) :: rest => if String.eqb k k' then true else contains k rest
  end.

(** [d.get(k)] *)
Fixpoint get (k : string) (d : dict) : option json :=
  match d with
  | [] => None
  | (k', v) :: rest => if String.eqb k k' then Some v else get k rest
  end.

(** [d[k] = v]: an existing key keeps its position, a new key goes last. *)
Fixpoint setitem (k : string) (v : json) (d : dict) : dict :=
  match d with
  | [] => [(k, v)]
  | (k', v') :: rest =>
      if String.eqb k k' then (k', v) :: rest else (k', v') :: setitem k v rest
  end.

(** The entries left by [del d[k]] and by [d.pop(k)]. *)
Fixpoint remove (k : string) (d : dict) : dict :=
  match d with
  | [] => []
  | (k', v') :: rest =>
      if String.eqb k k' then rest else (k', v') :: remove k rest
  end.

(** [len(d)] *)
Definition len (d : dict) : nat := List.length d.

(** The invariant of a Python dictionary: no key occurs twice. *)
Definition wf (d : dict) : Prop := NoDup (keys d).

End PyDict.

(** ** Computations: state, exceptions and Streamlit's rerun *)

Inductive outcome (A : Type) : Type :=
| Value (a : A)
| Raised (e : exn)
| Rerun.
Arguments Value {A} a.
Arguments Raised {A} e.
Arguments Rerun {A}.

Section Monad.
Context {St : Type}.

Definition M (A : Type) : Type := St -> outcome A * St.

Definition ret {A} (a : A) : M A := fun s => (Value a, s).

Definition bind {A B} (m : M A) (k : A -> M B) : M B :=
  fun s =>
    match m s with
    | (Value a, s') => k a s'
    | (Raised e, s') => (Raised e, s')
    | (Rerun, s') => (Rerun, s')
    end.

Definition raise {A} (e : exn) : M A := fun s => (Raised e, s).

(** [st.rerun()] stops the script run. *)
Definition st_rerun {A} : M A := fun s => (Rerun, s).

Definition gets {A} (f : St -> A) : M A := fun s => (Value (f s), s).

Definition modify (f : St -> St) : M unit := fun s => (Value tt, f s).

(** [try: body  except <caught>: handler] *)
Definition try_except {A} (body : M A) (caught : exn -> bool) (handler : M A) : M A :=
  fun s =>
    match body s with
    | (Raised e, s') => if caught e then handler s' else (Raised e, s')
    | r => r
    end.

(** [if c: body] with no [else] *)
Definition when (c : bool) (body : M unit) : M unit :=
  if c then body else ret tt.

End Monad.

Arguments M St A : clear implicits.

Declare Scope py_scope.
Delimit Scope py_scope with py.
Notation "x <- m ;; k" := (bind m (fun x => k))
  (at level 61, m at next level, right associativity) : py_scope.
Notation "m ;; k" := (bind m (fun _ => k))
  (at level 61, right associativity) : py_scope.
Notation "' pat <- m ;; k" := (bind m (fun x => match x with pat => k end))
  (at level 61, pat pattern, m at next level, right associativity) : py_scope.
Open Scope py_scope.

(** ** The world of the conversation store: two files and a clock *)

(** What a file holds, as [open(..., "r")] and [json.load] see it:
    - bytes that are not UTF-8 text: reading raises [UnicodeDecodeError];
    - a text that [json.load] rejects with [JSONDecodeError] (the empty
      file is one);
    - a text nested deeper than the interpreter's recursion limit:
      [json.load] raises [RecursionError];
    - a text with an integer of more digits than the interpreter
      converts: [json.load] raises [ValueError];
    - a text that decodes to a value.
    [json.dump] writes a text that decodes to the value dumped. Failures
    of the file system itself are left out. *)
Inductive file_text : Type :=
| NotUtf8
| Unparseable
| TooDeep
| HugeInteger
| Encodes (v : json).

Record World : Type := mkWorld {
  chats_json : option file_text;      (* CHAT_HISTORY_FILE, [None] when absent *)
  chats_json_tmp : option file_text;  (* CHAT_HISTORY_FILE + ".tmp" *)
  clock : nat -> string;              (* the n-th reading of datetime.now().isoformat() *)
  ticks : nat                         (* how many readings were taken *)
}.

Definition with_chats_json (f : option file_text) (w : World) : World :=
  mkWorld f (chats_json_tmp w) (clock w) (ticks w).

Definition with_chats_json_tmp (f : option file_text) (w : World) : World :=
  mkWorld (chats_json w) f (clock w) (ticks w).

(** [datetime.now().isoformat()] *)
Definition datetime_now_isoformat : M World string :=
  fun w => (Value (clock w (ticks w)),
            mkWorld (chats_json w) (chats_json_tmp w) (clock w) (S (ticks w))).

(** [os.path.exists(CHAT_HISTORY_FILE)] *)
Definition os_path_exists : M World bool :=
  gets (fun w => match chats_json w with Some _ => true | None => false end).

(** [json.load(f)] on the opened CHAT_HISTORY_FILE *)
Definition json_load : M World json :=
  fun w =>
    match chats_json w with
    | Some (Encodes v) => (Value v, w)
    | Some NotUtf8 => (Raised UnicodeDecodeError, w)
    | Some TooDeep => (Raised RecursionError, w)
    | Some HugeInteger => (Raised ValueError, w)
    | _ => (Raised JSONDecodeError, w)
    end.

(** [data.items()]: only a dict has the attribute. *)
Definition py_items (data : json) : M World dict :=
  match data with
  | JDict entries => ret entries
  | _ => raise AttributeError
  end.

(** [{"created_at": ts, "messages": content}] *)
Definition conversation (ts : string) (content : json) : json :=
  JDict [("created_at", JStr ts); ("messages", content)].

(** [{"Chat 1": {"created_at": ts, "messages": []}}] *)
Definition default_conversations (ts : string) : dict :=
  [("Chat 1", conversation ts (JList []))].

(** [save_conversations]: dump to the temporary file, then [os.replace]. *)
Definition save_conversations (conversations : dict) : M World unit :=
  modify (with_chats_json_tmp (Some (Encodes (JDict conversations))));;
  modify (fun w => with_chats_json_tmp None (with_chats_json (chats_json_tmp w) w)).

(** The migration loop of [load_conversations]: [items] is what is left
    of [data.items()], [data] and [migrated] are the loop's variables. *)
Fixpoint migrate_loop (items : dict) (data : dict) (migrated : bool)
  : M World (dict * bool) :=
  match items with
  | [] => ret (data, migrated)
  | (chat_name, content) :: rest =>
      if is_list content then
        ts <- datetime_now_isoformat;;
        migrate_loop rest (PyDict.setitem chat_name (conversation ts content) data) true
      else migrate_loop rest data migrated
  end.

Definition caught_by_load (e : exn) : bool :=
  match e with
  | JSONDecodeError | AttributeError | EOFError => true
  | _ => false
  end.

(** [load_conversations]. The [try] block yields [Some data] where the
    source returns [data], and the handler's [pass] yields [None], after
    which control reaches the default return. *)
Definition load_conversations : M World dict :=
  found <- os_path_exists;;
  returned <-
    (if found then
       try_except
         (data <- json_load;;
          items <- py_items data;;
          '(data, migrated) <- migrate_loop items items false;;
          '(data, migrated) <-
            (match data with
             | [] => ts <- datetime_now_isoformat;;
                     ret (default_conversations ts, true)
             | _ => ret (data, migrated)
             end);;
          when migrated (save_conversations data);;
          ret (Some data))
         caught_by_load
         (ret None)
     else ret None);;
  match returned with
  | Some data => ret data
  | None => ts <- datetime_now_isoformat;; ret (default_conversations ts)
  end.

(** ** Streamlit's session state and the script's handlers *)

Record Session : Type := mkSession {
  conversations : dict;
  current_chat : string;
  show_share_dialog_for : option string;
  show_rename_dialog_for : option string;
  chat_input_key : nat
}.

Inductive ui_msg : Type :=
| Toast (text : string)
| ErrorBox (text : string)
| WarningBox (text : string).

Record App : Type := mkApp {
  session : Session;
  world : World;
  shown : list ui_msg   (* what st.toast, st.error and st.warning displayed, oldest first *)
}.

(** [list(d.keys())[0]] *)
Definition first_key {St} (d : dict) : M St string :=
  match d with
  | [] => raise IndexError
  | (k, _) :: _ => ret k
  end.

(** A Python string or [None] used as a condition. *)
Definition truthy (s : option string) : bool :=
  match s with
  | Some s => negb (String.eqb s "")
  | None => false
  end.

(** The initialisation of [st.session_state] on a session's first run. *)
Definition init_session : M World Session :=
  loaded <- load_conversations;;
  loaded <- (match loaded with
             | [] => ts <- datetime_now_isoformat;; ret (default_conversations ts)
             | _ => ret loaded
             end);;
  first <- first_key loaded;;
  ret (mkSession loaded first None None 0).

Definition in_world {A} (m : M World A) : M App A :=
  fun a => let (r, w) := m (world a) in (r, mkApp (session a) w (shown a)).

Definition on_session (f : Session -> Session) : M App unit :=
  modify (fun a => mkApp (f (session a)) (world a) (shown a)).

Definition show (m : ui_msg) : M App unit :=
  modify (fun a => mkApp (session a) (world a) (shown a ++ [m])).

Definition set_conversations (d : dict) (s : Session) : Session :=
  mkSession d (current_chat s) (show_share_dialog_for s)
            (show_rename_dialog_for s) (chat_input_key s).

Definition set_current_chat (name : string) (s : Session) : Session :=
  mkSession (conversations s) name (show_share_dialog_for s)
            (show_rename_dialog_for s) (chat_input_key s).

Definition set_show_rename_dialog_for (v : option string) (s : Session) : Session :=
  mkSession (conversations s) (current_chat s) (show_share_dialog_for s)
            v (chat_input_key s).

Definition set_show_share_dialog_for (v : option string) (s : Session) : Session :=
  mkSession (conversations s) (current_chat s) v
            (show_rename_dialog_for s) (chat_input_key s).

(** [f"Chat {n}"] *)
Definition chat_name_of (n : nat) : string :=
  "Chat " ++ NilEmpty.string_of_uint (Nat.to_uint n).

(** The [while True] loop of the "New Chat" button, from counter [i] on.
    [None] means that [fuel] iterations did not reach the [break]. *)
Fixpoint find_new_chat_name (fuel : nat) (conversations : dict) (i : nat)
  : option string :=
  match fuel with
  | 0 => None
  | S fuel' =>
      let new_chat_name := chat_name_of (PyDict.len conversations + i) in
      if negb (PyDict.contains new_chat_name conversations) then Some new_chat_name
      else find_new_chat_name fuel' conversations (i + 1)
  end.

(** The "New Chat" button. [None] is returned only when the loop did not
    end within [fuel] iterations. *)
Definition new_chat_button (fuel : nat) : App -> option (outcome unit * App) :=
  fun a =>
    match find_new_chat_name fuel (conversations (session a)) 1 with
    | None => None
    | Some new_chat_name =>
        Some ((ts <- in_world datetime_now_isoformat;;
               on_session (fun s =>
                 set_conversations
                   (PyDict.setitem new_chat_name (conversation ts (JList []))
                                   (conversations s)) s);;
               on_session (set_current_chat new_chat_name);;
               convs <- gets (fun a => conversations (session a));;
               in_world (save_conversations convs);;
               st_rerun) a)
    end.

(** The button that selects a chat in the sidebar. *)
Definition select_button (chat_name : string) : M App unit :=
  on_session (set_current_chat chat_name);;
  st_rerun.

(** The "Rename" and "Share" buttons of a chat's popover. *)
Definition rename_dialog_button (chat_name : string) : M App unit :=
  on_session (set_show_rename_dialog_for (Some chat_name));;
  st_rerun.

Definition share_dialog_button (chat_name : string) : M App unit :=
  on_session (set_show_share_dialog_for (Some chat_name));;
  st_rerun.

(** [del d[k]] on the session's conversations *)
Definition del_conversation (k : string) : M App unit :=
  convs <- gets (fun a => conversations (session a));;
  if PyDict.contains k convs
  then on_session (set_conversations (PyDict.remove k convs))
  else raise (KeyError k).

(** The "Delete" button of a chat's popover. *)
Definition delete_chat_button (chat_name : string) : M App unit :=
  convs <- gets (fun a => conversations (session a));;
  if (1 <? PyDict.len convs)%nat then
    del_conversation chat_name;;
    convs <- gets (fun a => conversations (session a));;
    first <- first_key convs;;
    on_session (set_current_chat first);;
    in_world (save_conversations convs);;
    st_rerun
  else show (Toast "⚠️ Cannot delete the last chat.").

(** [d.pop(k)] on the session's conversations *)
Definition pop_conversation (k : string) : M App json :=
  convs <- gets (fun a => conversations (session a));;
  match PyDict.get k convs with
  | Some v => on_session (set_conversations (PyDict.remove k convs));; ret v
  | None => raise (KeyError k)
  end.

(** The rename dialog: the form shown while [show_rename_dialog_for] is
    set, with the text typed into it and the button that was pressed. *)
Definition rename_dialog (new_name : string) (submit_button cancel_button : bool)
  : M App unit :=
  shown_for <- gets (fun a => show_rename_dialog_for (session a));;
  match shown_for with
  | Some chat_to_rename =>
      if truthy shown_for then
        when submit_button
          (if negb (String.eqb new_name "") && negb (String.eqb new_name chat_to_rename)
           then
             convs <- gets (fun a => conversations (session a));;
             if PyDict.contains new_name convs
             then show (ErrorBox "A chat with this name already exists.")
             else
               old_data <- pop_conversation chat_to_rename;;
               on_session (fun s =>
                 set_conversations (PyDict.setitem new_name old_data (conversations s)) s);;
               current <- gets (fun a => current_chat (session a));;
               when (String.eqb current chat_to_rename)
                    (on_session (set_current_chat new_name));;
               convs <- gets (fun a => conversations (session a));;
               in_world (save_conversations convs);;
               on_session (set_show_rename_dialog_for None);;
               st_rerun
           else if String.eqb new_name chat_to_rename then
             show (WarningBox "New name is the same as the old name.");;
             on_session (set_show_rename_dialog_for None);;
             st_rerun
           else show (ErrorBox "Chat name cannot be empty."));;
        when cancel_button
          (on_session (set_show_rename_dialog_for None);;
           st_rerun)
      else ret tt
  | None => ret tt
  end.

(** What the user does in one run of the script, once the session state
    is initialised. *)
Inductive ui_action : Type :=
| NewChat
| SelectChat (chat_name : string)
| OpenRenameDialog (chat_name : string)
| OpenShareDialog (chat_name : string)
| DeleteChat (chat_name : string)
| RenameForm (new_name : string) (submit_button cancel_button : bool).

(** The handler the script runs for an action. The "New Chat" loop is
    given one iteration more than there are conversations. *)
Definition handle (act : ui_action) (a : App) : option (outcome unit * App) :=
  match act with
  | NewChat => new_chat_button (S (PyDict.len (conversations (session a)))) a
  | SelectChat chat_name => Some (select_button chat_name a)
  | OpenRenameDialog chat_name => Some (rename_dialog_button chat_name a)
  | OpenShareDialog chat_name => Some (share_dialog_button chat_name a)
  | DeleteChat chat_name => Some (delete_chat_button chat_name a)
  | RenameForm new_name submit_button cancel_button =>
      Some (rename_dialog new_name submit_button cancel_button a)
  end.

(** A session: one script run per action, each on the state the last left. *)
Fixpoint run (acts : list ui_action) (a : App) : option App :=
  match acts with
  | [] => Some a
  | act :: rest =>
      match handle act a with
      | Some (_, a') => run rest a'
      | None => None
      end
  end.

(** ** The sidebar's chat list *)

(** [sorted(xs, key=key, reverse=True)] on string keys. The result of
    Python's sort is fixed by two facts of its documentation: it is
    stable, and with [reverse=True] it sorts as if every comparison were
    reversed, elements with equal keys keeping their original order
    (CPython reverses the list, sorts it ascending and stably, and
    reverses it again). The stable ascending sort is written here as
    an insertion sort; strings compare like Python's, by code point. *)
Section Sorted.
Context {A : Type} (key : A -> string).

Fixpoint insert_by (x : A) (l : list A) : list A :=
  match l with
  | [] => [x]
  | y :: ys =>
      if String.leb (key x) (key y) then x :: y :: ys else y :: insert_by x ys
  end.

Fixpoint stable_sort (l : list A) : list A :=
  match l with
  | [] => []
  | x :: xs => insert_by x (stable_sort xs)
  end.

Definition sorted_reverse (l : list A) : list A :=
  rev (stable_sort (rev l)).

(** [a] may stand before [b] in ascending, respectively descending, order. *)
Definition ascending (a b : A) : Prop := String.leb (key a) (key b) = true.
Definition descending (a b : A) : Prop := String.leb (key b) (key a) = true.

End Sorted.

(** [datetime.min.isoformat()] *)
Definition datetime_min_isoformat : string := "0001-01-01T00:00:00".

(** The sort key [item[1].get("created_at", datetime.min.isoformat())].
    [None] stands for what is left out of the model: the [AttributeError]
    of a conversation that is not a dict, and keys that are not strings. *)
Definition created_at_key (item : string * json) : option string :=
  match snd item with
  | JDict record =>
      match PyDict.get "created_at" record with
      | None => Some datetime_min_isoformat
      | Some (JStr ts) => Some ts
      | Some _ => None
      end
  | _ => None
  end.

(** The items paired with their keys, when every key is a string. *)
Fixpoint with_keys (items : dict) : option (list (string * (string * json))) :=
  match items with
  | [] => Some []
  | item :: rest =>
      match created_at_key item, with_keys rest with
      | Some k, Some keyed => Some ((k, item) :: keyed)
      | _, _ => None
      end
  end.

(** [sorted_chats] *)
Definition sorted_chats (conversations : dict) : option dict :=
  match with_keys conversations with
  | Some keyed => Some (map snd (sorted_reverse fst keyed))
  | None => None
  end.

(** The names in the order in which the sidebar lists them. *)
Definition list_chats_sorted (conversations : dict) : option (list string) :=
  option_map PyDict.keys (sorted_chats conversations).

(** ** The AI responder ([llm.py]) *)

Module Llm.

(** One use of the Gemini client (its construction and the call of
    [generate_content]): a response whose [text] is a string, a response
    whose [text] is [None] (it has no text part), or an exception [e]
    given by [str(e)]. *)
Inductive api_result : Type :=
| Response (text : string)
| ResponseWithoutText
| ApiException (str_e : string).

(** How the function ends: it returns a string, returns [None], or
    raises. *)
Inductive py_result : Type :=
| Returns (s : string)
| ReturnsNone
| Raises (str_e : string).

Definition newline : string := String (ascii_of_nat 10) EmptyString.

(** [needle in haystack] *)
Definition str_in (needle haystack : string) : bool :=
  match String.index 0 needle haystack with
  | Some _ => true
  | None => false
  end.

Definition missing_key_text : string :=
  "❌ Error: GEMINI_API_KEY not found. Please set it in your environment.".

Definition error_prefix : string := "⚠️ Error: ".

(** [API_KEY] is what [os.getenv] gave at import time, [gemini] what
    the client does with a key and a prompt. *)
Definition get_gemini_response
    (API_KEY : option string) (gemini : string -> string -> api_result)
    (prompt : string) : py_result :=
  let body :=
    match API_KEY with
    | None => Returns missing_key_text
    | Some api_key =>
        if String.eqb api_key "" then Returns missing_key_text
        else
          match gemini api_key prompt with
          | Response text => Returns text
          | ResponseWithoutText => ReturnsNone
          | ApiException e => Raises e
          end
    end in
  match body with
  | Returns s => Returns s
  | ReturnsNone => ReturnsNone
  | Raises e =>
      let error_text := error_prefix ++ e in
      if str_in "API_KEY_INVALID" e then
        Returns (error_text ++ newline ++
                 "Reminder: Use a valid API key from Google AI Studio.")
      else if str_in "PERMISSION_DENIED" e then
        Returns (error_text ++ newline ++
                 "Your API key may not have access to Gemini API.")
      else Returns error_text
  end.

End Llm.

(** ** The main chat area *)

(** The exceptions of the main area: those of [exn], [TypeError], the
    exceptions with which Streamlit refuses a call (none of them is a
    [KeyError]), and any other, given by its text. *)
Inductive py_exn : Type :=
| Builtin (e : exn)
| TypeError
| StreamlitError
| Exception (str_e : string).

Inductive result (A : Type) : Type :=
| Done (a : A)
| Failed (e : py_exn)
| Rerunning.
Arguments Done {A} a.
Arguments Failed {A} e.
Arguments Rerunning {A}.

Section Script.
Context {St : Type}.

Definition Script (A : Type) : Type := St -> result A * St.

Definition sret {A} (a : A) : Script A := fun s => (Done a, s).

Definition sbind {A B} (m : Script A) (k : A -> Script B) : Script B :=
  fun s =>
    match m s with
    | (Done a, s') => k a s'
    | (Failed e, s') => (Failed e, s')
    | (Rerunning, s') => (Rerunning, s')
    end.

Definition sraise {A} (e : py_exn) : Script A := fun s => (Failed e, s).

Definition sgets {A} (f : St -> A) : Script A := fun s => (Done (f s), s).

Definition smodify (f : St -> St) : Script unit := fun s => (Done tt, f s).

(** A computation of [M], with its exceptions among [py_exn]'s. *)
Definition lift {A} (m : M St A) : Script A :=
  fun s =>
    match m s with
    | (Value a, s') => (Done a, s')
    | (Raised e, s') => (Failed (Builtin e), s')
    | (Rerun, s') => (Rerunning, s')
    end.

(** [try: body  except KeyError: handler] *)
Definition except_KeyError (body handler : Script unit) : Script unit :=
  fun s =>
    match body s with
    | (Failed (Builtin (KeyError _)), s') => handler s'
    | r => r
    end.

(** [v[k]] for a string [k] *)
Definition subscript (v : json) (k : string) : Script json :=
  match v with
  | JDict d =>
      match PyDict.get k d with
      | Some x => sret x
      | None => sraise (Builtin (KeyError k))
      end
  | _ => sraise TypeError
  end.

(** The elements a [for] loop takes from [v]: the items of a list, the
    keys of a dict, the characters of a string (a character is written
    as a one-byte string here). *)
Definition iterate (v : json) : Script (list json) :=
  match v with
  | JList items => sret items
  | JDict d => sret (map JStr (PyDict.keys d))
  | JStr s => sret (map (fun c => JStr (String c EmptyString)) (list_ascii_of_string s))
  | _ => sraise TypeError
  end.

End Script.

Arguments Script St A : clear implicits.

Declare Scope script_scope.
Delimit Scope script_scope with script.
Notation "x <- m ;; k" := (sbind m (fun x => k))
  (at level 61, m at next level, right associativity) : script_scope.
Notation "m ;; k" := (sbind m (fun _ => k))
  (at level 61, right associativity) : script_scope.

(** A file handed over by [st.file_uploader]. *)
Record UploadedFile : Type := mkUploadedFile {
  file_name : string;            (* file.name *)
  file_type : option string;     (* file.type, the MIME type *)
  file_buffer : string           (* file.getbuffer(), the bytes *)
}.

(** The calls that draw the main area, with their arguments. *)
Inductive element : Type :=
| Title (text : string)
| ChatMessage (role : json)
| Markdown (body : json)
| Image (path caption : json)
| Audio (path : json)
| DownloadButton (label data name key : string)
| StError (text : string)
| UnsupportedWarning (msg_type : json).

(** The regular files other than the chat history, by path. Directories
    are left out: [open(path, "wb")] is taken to succeed. *)
Definition files : Type := list (string * string).

Fixpoint file_read (path : string) (fs : files) : option string :=
  match fs with
  | [] => None
  | (p, data) :: rest => if String.eqb path p then Some data else file_read path rest
  end.

Fixpoint file_write (path data : string) (fs : files) : files :=
  match fs with
  | [] => [(path, data)]
  | (p, old) :: rest =>
      if String.eqb path p then (p, data) :: rest else (p, old) :: file_write path data rest
  end.

Record Desk : Type := mkDesk {
  app_state : App;
  disk : files;
  screen : list element   (* the calls made so far, oldest first *)
}.

Definition UPLOAD_DIR : string := "uploads".

Definition is_slash (c : ascii) : bool := Ascii.eqb c "/"%char.

(** [os.path.basename] (POSIX): what follows the last slash. [tail] is
    what follows the last slash seen so far. *)
Fixpoint basename_from (tail p : string) : string :=
  match p with
  | EmptyString => tail
  | String c rest =>
      if is_slash c then basename_from rest rest else basename_from tail rest
  end.

Definition basename (p : string) : string := basename_from p p.

(** [s.endswith("/")] *)
Fixpoint ends_with_slash (s : string) : bool :=
  match s with
  | EmptyString => false
  | String c EmptyString => is_slash c
  | String _ rest => ends_with_slash rest
  end.

(** [os.path.join(a, b)] (POSIX) *)
Definition path_join (a b : string) : string :=
  if String.prefix "/" b then b
  else if String.eqb a "" || ends_with_slash a then (a ++ b)%string
  else (a ++ "/" ++ b)%string.

(** [get_session_id]: [ctx] is the session id of the script run context,
    [None] when [get_script_run_ctx()] gives [None]. *)
Definition get_session_id (ctx : option string) : string :=
  match ctx with
  | None => "non_streamlit_session"
  | Some session_id => session_id
  end.

(** [d.get(k, default)] *)
Definition get_default (k : string) (default : json) (d : dict) : json :=
  match PyDict.get k d with
  | Some v => v
  | None => default
  end.

(** [v == s] for a string [s] *)
Definition equals_str (v : json) (s : string) : bool :=
  match v with
  | JStr t => String.eqb t s
  | _ => false
  end.

(** [os.path.basename(v)]: only a string is a path. *)
Definition basename_of {St} (v : json) : Script St string :=
  match v with
  | JStr p => sret (basename p)
  | _ => sraise TypeError
  end.

Definition in_app {A} (m : Script App A) : Script Desk A :=
  fun d => let (r, a) := m (app_state d) in (r, mkDesk a (disk d) (screen d)).

Definition emit (e : element) : Script Desk unit :=
  smodify (fun d => mkDesk (app_state d) (disk d) (screen d ++ [e])).

(** What the script's libraries do where the model does not compute it. *)
Record Library : Type := mkLibrary {
  (* the truth value of a number, given by its literal *)
  number_truth : string -> bool;
  (* whether Streamlit takes a string for a URL and not for a local path *)
  is_url : string -> bool;
  (* whether [st.image] ("image") or [st.audio] ("audio") accepts a
     source that is not a string, with the files as they are *)
  accepts : string -> json -> files -> bool
}.

(** [with st.chat_message(role):] Streamlit refuses a role that is not a
    string. *)
Definition st_chat_message (role : json) : Script Desk unit :=
  match role with
  | JStr _ => emit (ChatMessage role)
  | _ => sraise StreamlitError
  end.

(** A download button with this key was drawn in the run. *)
Definition key_used (key : string) (drawn : list element) : bool :=
  existsb (fun e => match e with
                    | DownloadButton _ _ _ k => String.eqb k key
                    | _ => false
                    end) drawn.

(** [st.download_button(label=..., data=..., file_name=..., key=...)]:
    Streamlit refuses a key used twice in a run. *)
Definition st_download_button (label data name key : string) : Script Desk unit :=
  sbind (sgets screen)
        (fun drawn =>
           if key_used key drawn then sraise StreamlitError
           else emit (DownloadButton label data name key)).

Definition write_file (path data : string) : Script Desk unit :=
  smodify (fun d => mkDesk (app_state d) (file_write path data (disk d)) (screen d)).

(** The type of message chosen for an uploaded file. *)
Definition upload_type (file : UploadedFile) : string :=
  if truthy (file_type file) &&
     match file_type file with Some t => String.prefix "image/" t | None => false end
  then "image"
  else if truthy (file_type file) &&
          match file_type file with Some t => String.prefix "audio/" t | None => false end
  then "audio"
  else "file".

Definition text_message (role content : string) : json :=
  JDict [("role", JStr role); ("content", JStr content); ("type", JStr "text")].

(** [{"role": "assistant", "content": response, "type": "text"}] *)
Definition reply_message (response : json) : json :=
  JDict [("role", JStr "assistant"); ("content", response); ("type", JStr "text")].

Definition upload_message (file_type file_path name : string) : json :=
  JDict [("role", JStr "user"); ("type", JStr file_type);
         ("file_path", JStr file_path); ("content", JStr name)].

(** [f"Received your {file_type}: **{file.name}**"] *)
Definition upload_reply (file_type name : string) : string :=
  ("Received your " ++ file_type ++ ": **" ++ name ++ "**")%string.

Section MainArea.
Variable lib : Library.
(** The credential and the Gemini client of [llm.py]. *)
Variable API_KEY : option string.
Variable gemini : string -> string -> Llm.api_result.
(** The session id of the run context, if there is one. *)
Variable ctx : option string.

Local Open Scope script_scope.

(** A value used as a condition. *)
Definition truth (v : json) : bool :=
  match v with
  | JNull => false
  | JBool b => b
  | JNum literal => number_truth lib literal
  | JStr s => negb (String.eqb s "")
  | JList items => match items with [] => false | _ => true end
  | JDict entries => match entries with [] => false | _ => true end
  end.

(** Whether [st.image] or [st.audio] finds its source: a URL is passed
    on as it is, a local path must be the path of a file. *)
Definition media_found (kind : string) (source : json) (fs : files) : bool :=
  match source with
  | JStr path =>
      is_url lib path || match file_read path fs with Some _ => true | None => false end
  | _ => accepts lib kind source fs
  end.

(** [st.image(source, caption=caption, ...)] *)
Definition st_image (source caption : json) : Script Desk unit :=
  fs <- sgets disk;;
  if media_found "image" source fs then emit (Image source caption)
  else sraise StreamlitError.

(** [st.audio(source)] *)
Definition st_audio (source : json) : Script Desk unit :=
  fs <- sgets disk;;
  if media_found "audio" source fs then emit (Audio source)
  else sraise StreamlitError.

(** The body of the loop that displays the messages. *)
Definition render_message (message : json) : Script Desk unit :=
  except_KeyError
    (role <- subscript message "role";;
     st_chat_message role;;
     match message with
     | JDict fields =>
         let msg_type := get_default "type" (JStr "text") fields in
         let file_path := get_default "file_path" JNull fields in
         if equals_str msg_type "text" then
           content <- subscript message "content";;
           emit (Markdown content)
         else if equals_str msg_type "image" && truth file_path then
           st_image file_path (get_default "content" (JStr "Image") fields)
         else if equals_str msg_type "audio" && truth file_path then
           st_audio file_path
         else if equals_str msg_type "file" && truth file_path then
           fallback <- basename_of file_path;;
           display_name <- basename_of (get_default "content" (JStr fallback) fields);;
           match file_path with
           | JStr path =>
               found <- sgets (fun d => file_read path (disk d));;
               match found with
               | Some file_bytes =>
                   st_download_button ("📎 Download " ++ display_name) file_bytes
                                      display_name ("download_" ++ path)
               | None => emit (StError ("File not found: " ++ display_name))
               end
           | _ => sraise TypeError
           end
         else emit (UnsupportedWarning msg_type)
     | _ => sraise TypeError
     end)
    (emit (StError "Malformed message found in conversation history.")).

Fixpoint render_messages (messages : list json) : Script Desk unit :=
  match messages with
  | [] => sret tt
  | message :: rest => render_message message;; render_messages rest
  end.

(** [current_chat_data["messages"].append(message)]: the list is changed
    in place, so the store holds the longer list under the same names. *)
Definition append_message (message : json) : Script Desk unit :=
  name <- sgets (fun d => current_chat (session (app_state d)));;
  convs <- sgets (fun d => conversations (session (app_state d)));;
  match PyDict.get name convs with
  | Some current_chat_data =>
      messages <- subscript current_chat_data "messages";;
      match current_chat_data, messages with
      | JDict record, JList items =>
          in_app (lift (on_session (set_conversations
            (PyDict.setitem name
               (JDict (PyDict.setitem "messages" (JList (items ++ [message])) record))
               convs))))
      | _, _ => sraise (Builtin AttributeError)
      end
  | None => sraise TypeError
  end.

(** [get_gemini_response(prompt)], as the script calls it. *)
Definition call_gemini (prompt : string) : Script Desk json :=
  match Llm.get_gemini_response API_KEY gemini prompt with
  | Llm.Returns response => sret (JStr response)
  | Llm.ReturnsNone => sret JNull
  | Llm.Raises e => sraise (Exception e)
  end.

(** The loop over the uploaded files. *)
Fixpoint upload_loop (session_upload_dir : string) (uploaded_files : list UploadedFile)
  : Script Desk unit :=
  match uploaded_files with
  | [] => sret tt
  | file :: rest =>
      let file_path := path_join session_upload_dir (file_name file) in
      write_file file_path (file_buffer file);;
      let file_type := upload_type file in
      append_message (upload_message file_type file_path (file_name file));;
      append_message (text_message "assistant" (upload_reply file_type (file_name file)));;
      upload_loop session_upload_dir rest
  end.

(** What the script does with the chat input and the uploader. The
    guard [if uploaded_files:] is the loop's own: over no file it does
    nothing. [os.makedirs] is left out with the directories. *)
Definition handle_input (prompt : option string) (uploaded_files : list UploadedFile)
  : Script Desk unit :=
  let session_upload_dir := path_join UPLOAD_DIR (get_session_id ctx) in
  if truthy prompt || match uploaded_files with [] => false | _ => true end then
    match prompt with
    | Some text =>
        if truthy prompt then
          append_message (text_message "user" text);;
          response <- call_gemini text;;
          append_message (reply_message response)
        else sret tt
    | None => sret tt
    end;;
    upload_loop session_upload_dir uploaded_files;;
    convs <- sgets (fun d => conversations (session (app_state d)));;
    in_app (lift (in_world (save_conversations convs)));;
    in_app (lift st_rerun)
  else sret tt.

(** The main chat area: the title, the messages of the active chat, then
    the input. *)
Definition main_area (prompt : option string) (uploaded_files : list UploadedFile)
  : Script Desk unit :=
  name <- sgets (fun d => current_chat (session (app_state d)));;
  emit (Title ("🤖 " ++ name));;
  convs <- sgets (fun d => conversations (session (app_state d)));;
  match PyDict.get name convs with
  | Some current_chat_data =>
      if truth current_chat_data then
        messages <- subscript current_chat_data "messages";;
        items <- iterate messages;;
        render_messages items;;
        handle_input prompt uploaded_files
      else sret tt
  | None => sret tt
  end.

End MainArea.

(** ** Notions used to state the properties *)

(** A conversation in the current shape: a record with a string under
    ["created_at"] and a list under ["messages"]. *)
Definition is_canonical (v : json) : bool :=
  match v with
  | JDict record =>
      match PyDict.get "created_at" record, PyDict.get "messages" record with
      | Some (JStr _), Some (JList _) => true
      | _, _ => false
      end
  | _ => false
  end.

(** How [load_conversations], run from world [w] to world [w'], turns an
    entry of the file into an entry of its result: a bare list is
    wrapped with a clock reading taken during the run, anything else is
    kept. *)
Definition migrated_entry (w w' : World) (old new : string * json) : Prop :=
  fst new = fst old /\
  match snd old with
  | JList msgs =>
      exists n, ticks w <= n < ticks w' /\
                snd new = JDict [("created_at", JStr (clock w n));
                                 ("messages", JList msgs)]
  | v => snd new = v
  end.

(** The migration as one pass over the entries, from reading [n] on. *)
Fixpoint migrate_from (clk : nat -> string) (n : nat) (d : dict) : dict * nat :=
  match d with
  | [] => ([], n)
  | (k, v) :: rest =>
      if is_list v then
        let (rest', n') := migrate_from clk (S n) rest in
        ((k, conversation (clk n) v) :: rest', n')
      else
        let (rest', n') := migrate_from clk n rest in
        ((k, v) :: rest', n')
  end.

Definition with_ticks (n : nat) (w : World) : World :=
  mkWorld (chats_json w) (chats_json_tmp w) (clock w) n.

(** The world left by [save_conversations d]. *)
Definition saved (d : dict) (w : World) : World :=
  mkWorld (Some (Encodes (JDict d))) None (clock w) (ticks w).

Definition entry_is_list (e : string * json) : bool := is_list (snd e).

(** [migrated_entry] with the clock and the range of readings spelled out. *)
Definition entry_rel (clk : nat -> string) (lo hi : nat) (old new : string * json) : Prop :=
  fst new = fst old /\
  match snd old with
  | JList msgs =>
      exists n, lo <= n < hi /\
                snd new = JDict [("created_at", JStr (clk n)); ("messages", JList msgs)]
  | v => snd new = v
  end.

Definition legacy_or_canonical (e : string * json) : Prop :=
  is_list (snd e) || is_canonical (snd e) = true.

Definition canonical_entry (e : string * json) : Prop :=
  is_canonical (snd e) = true.

(** A world whose file holds one legacy entry. *)
Definition legacy_world : World :=
  mkWorld (Some (Encodes (JDict [("Old", JList [JStr "hi"])]))) None
          (fun _ => "2024-01-01T00:00:00") 0.

(** The creation time of a chat, read off its record: the string under
    "created_at", or the text of [datetime.min] when there is none. *)
Definition created_at_of (item : string * json) : string :=
  match snd item with
  | JDict record =>
      match PyDict.get "created_at" record with
      | Some (JStr ts) => ts
      | _ => "0001-01-01T00:00:00"
      end
  | _ => "0001-01-01T00:00:00"
  end.

(** A chat whose conversation is a record with a string, or nothing,
    under "created_at". *)
Definition dated (item : string * json) : Prop :=
  exists record,
    snd item = JDict record /\
    (PyDict.get "created_at" record = None \/
     exists ts, PyDict.get "created_at" record = Some (JStr ts)).

(** The sort key of an item whose key is a string. *)
Definition created_at (item : string * json) : string :=
  match created_at_key item with
  | Some ts => ts
  | None => ""
  end.

(** An item paired with its sort key. *)
Definition keyed (item : string * json) : string * (string * json) :=
  (created_at item, item).

(** Three chats, the first and the last created at the same time. *)
Definition three_chats : dict :=
  [("a", conversation "2024-01-01T00:00:00" (JList []));
   ("b", conversation "2024-01-02T00:00:00" (JList []));
   ("c", conversation "2024-01-01T00:00:00" (JList []))].

(** A session with two chats and the rename dialog open for the first. *)
Definition two_chats : App :=
  mkApp (mkSession [("A", conversation "1" (JList [JStr "hi"]));
                    ("B", conversation "2" (JList []))]
                   "A" None (Some "A") 0)
        (mkWorld None None (fun _ => "3") 0) [].

(** The store left by a handled action has a conversation. *)
Definition nonempty_after (r : option (outcome unit * App)) : Prop :=
  match r with
  | Some (_, a') => conversations (session a') <> []
  | None => True
  end.

(** The file holds the store of the session. *)
Definition synced (a : App) : Prop :=
  chats_json (world a) = Some (Encodes (JDict (conversations (session a)))).

(** The active chat is one of the conversations. *)
Definition active_chat_exists (a : App) : Prop :=
  PyDict.contains (current_chat (session a)) (conversations (session a)) = true.

(** An action that the sidebar offers in state [a]: its buttons exist
    only for the chats of the store. *)
Definition offered (act : ui_action) (a : App) : Prop :=
  match act with
  | SelectChat chat_name =>
      PyDict.contains chat_name (conversations (session a)) = true
  | _ => True
  end.

(** [P] holds of the state left by a handled action. *)
Definition after (P : App -> Prop) (r : option (outcome unit * App)) : Prop :=
  match r with
  | Some (_, a') => P a'
  | None => True
  end.

(** The store [convs] with [items] as the messages of the record
    [record] of chat [name]. *)
Definition with_messages (items : list json) (name : string) (record convs : dict)
  : dict :=
  PyDict.setitem name (JDict (PyDict.setitem "messages" (JList items) record)) convs.

(** What [get_gemini_response] returns, as a value. *)
Definition gemini_reply (API_KEY : option string)
    (gemini : string -> string -> Llm.api_result) (prompt : string) : json :=
  match Llm.get_gemini_response API_KEY gemini prompt with
  | Llm.Returns response => JStr response
  | Llm.ReturnsNone => JNull
  | Llm.Raises _ => JNull
  end.


(** The messages that a prompt adds: the user's text, then the reply. *)
Definition prompt_messages (API_KEY : option string)
    (gemini : string -> string -> Llm.api_result) (prompt : option string)
  : list json :=
  match prompt with
  | Some text =>
      if truthy prompt
      then [text_message "user" text;
            reply_message (gemini_reply API_KEY gemini text)]
      else []
  | None => []
  end.

(** Where an uploaded file is written. *)
Definition upload_path (ctx : option string) (file : UploadedFile) : string :=
  path_join (path_join UPLOAD_DIR (get_session_id ctx)) (file_name file).

(** The messages that uploads add: for each file, in order, the user's
    message and the acknowledgement. *)
Definition upload_messages (ctx : option string) (uploaded_files : list UploadedFile)
  : list json :=
  flat_map (fun file =>
              [upload_message (upload_type file) (upload_path ctx file) (file_name file);
               text_message "assistant" (upload_reply (upload_type file) (file_name file))])
           uploaded_files.

(** The bytes of the last of the uploaded files written to [path]. *)
Fixpoint last_upload (ctx : option string) (path : string)
    (uploaded_files : list UploadedFile) : option string :=
  match uploaded_files with
  | [] => None
  | file :: rest =>
      match last_upload ctx path rest with
      | Some data => Some data
      | None =>
          if String.eqb path (upload_path ctx file) then Some (file_buffer file) else None
      end
  end.

(** The files after the uploads were written, in order. *)
Definition write_uploads (ctx : option string) (uploaded_files : list UploadedFile)
    (fs : files) : files :=
  fold_left (fun fs file => file_write (upload_path ctx file) (file_buffer file) fs)
            uploaded_files fs.

Definition desk_conversations (d : Desk) : dict :=
  conversations (session (app_state d)).

Definition desk_current_chat (d : Desk) : string :=
  current_chat (session (app_state d)).

(** The desk [d] with another store. *)
Definition desk_with_conversations (convs : dict) (d : Desk) : Desk :=
  mkDesk (mkApp (set_conversations convs (session (app_state d)))
                (world (app_state d)) (shown (app_state d)))
         (disk d) (screen d).

(** A string without a slash. *)
Fixpoint slash_free (s : string) : bool :=
  match s with
  | EmptyString => true
  | String c rest => negb (is_slash c) && slash_free rest
  end.

(** A download button with this key is on the screen. *)
Definition download_key_drawn (key : string) (drawn : list element) : Prop :=
  exists label data name, In (DownloadButton label data name key) drawn.

(** A library for which every number is true, no string is a URL and no
    source other than a string is accepted. *)
Definition plain_library : Library :=
  mkLibrary (fun _ => true) (fun _ => false) (fun _ _ _ => false).

(** There is an uploaded file. *)
Definition nonempty_uploads (uploaded_files : list UploadedFile) : bool :=
  match uploaded_files with [] => false | _ => true end.

(** The chats of [d'] are those of [d], in the same order, and the same
    chat is active. *)
Definition same_chats (d d' : Desk) : Prop :=
  PyDict.keys (desk_conversations d') = PyDict.keys (desk_conversations d) /\
  desk_current_chat d' = desk_current_chat d.

(** A desk whose active chat "A" holds one message. *)
Definition one_message_desk : Desk :=
  mkDesk (mkApp (mkSession [("A", conversation "1" (JList [text_message "user" "hi"]));
                            ("B", conversation "2" (JList []))]
                           "A" None None 0)
                (mkWorld None None (fun _ => "3") 0) [])
         [] [].

Definition notes_txt : UploadedFile :=
  mkUploadedFile "notes.txt" (Some "text/plain") "some bytes".

(** From [d] to [d'] only the screen changed, by further calls. *)
Definition only_draws (d d' : Desk) : Prop :=
  app_state d' = app_state d /\ disk d' = disk d /\
  exists drawn, screen d' = (screen d ++ drawn)%list.

(** The desk [d] after the calls [drawn]. *)
Definition draw (drawn : list element) (d : Desk) : Desk :=
  mkDesk (app_state d) (disk d) (screen d ++ drawn).

(** The chat-history file is absent, or it is a text that [json.load]
    decodes or rejects with [JSONDecodeError]. *)
Definition decodable (w : World) : Prop :=
  match chats_json w with
  | Some NotUtf8 | Some TooDeep | Some HugeInteger => False
  | _ => True
  end.

(** ** Dictionaries *)

Open Scope list_scope.

Section PyDictFacts.

Lemma contains_In k (d : dict) :
  PyDict.contains k d = true <-> In k (PyDict.keys d).
Proof.
  induction d as [|[k' v'] d IH]; simpl.
  - split; [discriminate | tauto].
  - destruct (String.eqb_spec k k') as [->|Hne].
    + split; auto.
    + rewrite IH. split; [auto | intros [E|H]; [congruence | exact H]].
Qed.

Lemma contains_false k (d : dict) :
  PyDict.contains k d = false <-> ~ In k (PyDict.keys d).
Proof.
  rewrite <- contains_In. destruct (PyDict.contains k d); split; intros; congruence.
Qed.

Lemma get_None k (d : dict) :
  PyDict.get k d = None <-> ~ In k (PyDict.keys d).
Proof.
  induction d as [|[k' v'] d IH]; simpl.
  - tauto.
  - destruct (String.eqb_spec k k') as [->|Hne].
    + split; [discriminate | intros H; exfalso; apply H; auto].
    + rewrite IH. split; [intros H [E|H']; [congruence | tauto] | tauto].
Qed.

Lemma setitem_fresh k v (d : dict) :
  ~ In k (PyDict.keys d) -> PyDict.setitem k v d = (d ++ [(k, v)])%list.
Proof.
  induction d as [|[k' v'] d IH]; simpl; intros H; [reflexivity|].
  destruct (String.eqb_spec k k') as [->|Hne]; [tauto|].
  rewrite IH; tauto.
Qed.

Lemma setitem_middle k v v0 (done rest : dict) :
  ~ In k (PyDict.keys done) ->
  PyDict.setitem k v (done ++ (k, v0) :: rest)%list = (done ++ (k, v) :: rest)%list.
Proof.
  induction done as [|[k' v'] done IH]; simpl; intros H.
  - rewrite String.eqb_refl. reflexivity.
  - destruct (String.eqb_spec k k') as [->|Hne]; [tauto|].
    rewrite IH; tauto.
Qed.

Lemma remove_middle k v (l1 l2 : dict) :
  ~ In k (PyDict.keys l1) ->
  PyDict.remove k (l1 ++ (k, v) :: l2)%list = (l1 ++ l2)%list.
Proof.
  induction l1 as [|[k' v'] l1 IH]; simpl; intros H.
  - rewrite String.eqb_refl. reflexivity.
  - destruct (String.eqb_spec k k') as [->|Hne]; [tauto|].
    rewrite IH; tauto.
Qed.

Lemma get_remove_other k k' (d : dict) :
  k' <> k -> PyDict.get k' (PyDict.remove k d) = PyDict.get k' d.
Proof.
  intros Hne. induction d as [|[k0 v0] d IH]; simpl; [reflexivity|].
  destruct (String.eqb_spec k k0) as [->|Hk].
  - destruct (String.eqb_spec k' k0); [congruence | reflexivity].
  - simpl. rewrite IH. reflexivity.
Qed.

Lemma get_remove_same k (d : dict) :
  PyDict.wf d -> PyDict.get k (PyDict.remove k d) = None.
Proof.
  unfold PyDict.wf. induction d as [|[k0 v0] d IH]; simpl; intros Hwf; [reflexivity|].
  inversion Hwf as [|? ? Hnin Hnd]; subst.
  destruct (String.eqb_spec k k0) as [->|Hk].
  - apply get_None. exact Hnin.
  - simpl. destruct (String.eqb_spec k k0); [congruence|]. apply IH, Hnd.
Qed.

Lemma get_app_fresh k (d : dict) k' v :
  PyDict.get k (d ++ [(k', v)])%list =
  match PyDict.get k d with
  | Some x => Some x
  | None => if String.eqb k k' then Some v else None
  end.
Proof.
  induction d as [|[k0 v0] d IH]; simpl; [reflexivity|].
  destruct (String.eqb k k0); [reflexivity | exact IH].
Qed.

Lemma keys_remove_incl k (d : dict) :
  incl (PyDict.keys (PyDict.remove k d)) (PyDict.keys d).
Proof.
  induction d as [|[k0 v0] d IH]; simpl; [apply incl_refl|].
  destruct (String.eqb k k0).
  - apply incl_tl, incl_refl.
  - simpl. apply incl_cons; [left; reflexivity | apply incl_tl, IH].
Qed.

Lemma length_remove k (d : dict) :
  PyDict.contains k d = true -> S (length (PyDict.remove k d)) = length d.
Proof.
  induction d as [|[k0 v0] d IH]; simpl; [discriminate|].
  destruct (String.eqb k k0); [reflexivity|].
  intros H. simpl. rewrite IH; auto.
Qed.

Lemma setitem_nonempty k v (d : dict) : PyDict.setitem k v d <> [].
Proof.
  destruct d as [|[k0 v0] d]; simpl; [discriminate|].
  destruct (String.eqb k k0); discriminate.
Qed.

End PyDictFacts.

(** ** The conversation store *)

Module Store.

Lemma with_ticks_same w : with_ticks (ticks w) w = w.
Proof. destruct w; reflexivity. Qed.

(** The loop run on the entries of a dictionary is the one-pass migration. *)
Lemma migrate_loop_spec items : forall done migrated w,
  NoDup (PyDict.keys (done ++ items)) ->
  migrate_loop items (done ++ items) migrated w =
  (Value ((done ++ fst (migrate_from (clock w) (ticks w) items))%list,
          migrated || existsb entry_is_list items),
   with_ticks (snd (migrate_from (clock w) (ticks w) items)) w).
Proof.
  induction items as [|[k v] rest IH]; intros done migrated w Hnd.
  - simpl. rewrite app_nil_r, orb_false_r, with_ticks_same. reflexivity.
  - assert (Hk : ~ In k (PyDict.keys done)).
    { unfold PyDict.keys in *. rewrite map_app in Hnd. simpl in Hnd.
      apply NoDup_remove_2 in Hnd. intros Hin. apply Hnd, in_or_app. auto. }
    cbn [migrate_loop migrate_from existsb]. unfold entry_is_list at 1. cbn [snd].
    destruct (is_list v) eqn:Hv.
    + unfold bind at 1. cbn [datetime_now_isoformat].
      rewrite setitem_middle by exact Hk.
      change (done ++ (k, conversation (clock w (ticks w)) v) :: rest)%list
        with (done ++ [(k, conversation (clock w (ticks w)) v)] ++ rest)%list.
      rewrite app_assoc, IH.
      * cbn [clock ticks]. destruct (migrate_from (clock w) (S (ticks w)) rest) as [rest' n'].
        cbn [fst snd]. rewrite <- app_assoc, orb_true_r. reflexivity.
      * unfold PyDict.keys in *. rewrite <- app_assoc, map_app in *. exact Hnd.
    + change (done ++ (k, v) :: rest)%list with (done ++ [(k, v)] ++ rest)%list.
      rewrite app_assoc, IH.
      * destruct (migrate_from (clock w) (ticks w) rest) as [rest' n'].
        cbn [fst snd]. rewrite <- app_assoc. reflexivity.
      * rewrite <- app_assoc. exact Hnd.
Qed.

Lemma entry_rel_weaken clk lo hi lo' hi' old new :
  lo' <= lo -> hi <= hi' -> entry_rel clk lo hi old new -> entry_rel clk lo' hi' old new.
Proof.
  intros Hlo Hhi [Hk Hv]. split; [exact Hk|].
  destruct (snd old); try exact Hv.
  destruct Hv as [n [Hn E]]. exists n. split; [lia | exact E].
Qed.

Lemma migrate_from_rel clk d : forall n,
  n <= snd (migrate_from clk n d) /\
  Forall2 (entry_rel clk n (snd (migrate_from clk n d))) d (fst (migrate_from clk n d)).
Proof.
  induction d as [|[k v] rest IH]; intros n; cbn [migrate_from].
  - split; [apply Nat.le_refl | constructor].
  - destruct (is_list v) eqn:Hv.
    + specialize (IH (S n)). destruct (migrate_from clk (S n) rest) as [rest' n'].
      cbn [fst snd] in *. destruct IH as [Hle HF]. split; [lia|].
      constructor.
      * split; [reflexivity|]. cbn [snd]. destruct v; try discriminate.
        exists n. split; [lia | reflexivity].
      * eapply Forall2_impl; [|exact HF].
        intros a b. apply entry_rel_weaken; lia.
    + specialize (IH n). destruct (migrate_from clk n rest) as [rest' n'].
      cbn [fst snd] in *. destruct IH as [Hle HF]. split; [exact Hle|].
      constructor; [|exact HF].
      split; [reflexivity|]. cbn [snd]. destruct v; try reflexivity. discriminate.
Qed.

Lemma canonical_conversation ts msgs : is_canonical (conversation ts (JList msgs)) = true.
Proof. reflexivity. Qed.

Lemma entry_rel_canonical clk lo hi old new :
  entry_rel clk lo hi old new ->
  is_list (snd old) || is_canonical (snd old) = true ->
  is_canonical (snd new) = true.
Proof.
  intros [_ Hv] H. destruct (snd old); cbn [is_list orb] in H;
    try (rewrite Hv; exact H).
  destruct Hv as [n [_ ->]]. apply canonical_conversation.
Qed.

Lemma existsb_legacy (d : dict) k msgs :
  In (k, JList msgs) d -> existsb entry_is_list d = true.
Proof.
  intros H. apply existsb_exists. exists (k, JList msgs). split; [exact H | reflexivity].
Qed.

Lemma save_conversations_spec d w :
  save_conversations d w = (Value tt, saved d w).
Proof. reflexivity. Qed.

(** [load_conversations] on a file that decodes to a non-empty dictionary. *)
Lemma load_conversations_decoded w (d : dict) :
  chats_json w = Some (Encodes (JDict d)) -> PyDict.wf d -> d <> [] ->
  let d' := fst (migrate_from (clock w) (ticks w) d) in
  let w' := with_ticks (snd (migrate_from (clock w) (ticks w) d)) w in
  load_conversations w =
  (Value d', if existsb entry_is_list d then saved d' w' else w').
Proof.
  intros Hfile Hwf Hne.
  unfold load_conversations, os_path_exists, gets, bind at 1. rewrite Hfile.
  unfold bind at 1, try_except, bind at 1, json_load. rewrite Hfile.
  unfold bind at 1. cbn [py_items ret].
  unfold bind at 1.
  pose proof (migrate_loop_spec d [] false w Hwf) as Hloop.
  cbn [app orb] in Hloop. rewrite Hloop. clear Hloop.
  pose proof (migrate_from_rel (clock w) d (ticks w)) as [_ HF].
  destruct (migrate_from (clock w) (ticks w) d) as [d' n'] eqn:Hm. cbn [fst snd] in *.
  destruct d' as [|e d'].
  - inversion HF; subst. congruence.
  - unfold bind, ret. destruct (existsb entry_is_list d); reflexivity.
Qed.

(** The migration loop always runs to its end. *)
Lemma migrate_loop_value items : forall data migrated w,
  exists data' migrated' w',
    migrate_loop items data migrated w = (Value (data', migrated'), w').
Proof.
  induction items as [|[k v] rest IH]; intros data migrated w; cbn [migrate_loop].
  - eexists _, _, _. reflexivity.
  - destruct (is_list v); [|apply IH].
    unfold bind at 1. cbn [datetime_now_isoformat]. apply IH.
Qed.

(** [load_conversations] ends in one of two ways: it returns a store
    that has a conversation, or it raises, with the world as it was, an
    exception that [json.load] raised and the handler does not list. *)
Lemma load_conversations_outcome w :
  (exists d w', load_conversations w = (Value d, w') /\ d <> []) \/
  (exists e, load_conversations w = (Raised e, w) /\ ~ decodable w).
Proof.
  unfold decodable.
  destruct (chats_json w) as [[| | | |v]|] eqn:Hfile;
    [right|left|right|right|left|left];
    try (eexists; split; [|tauto]);
    unfold load_conversations, os_path_exists, gets, bind at 1; rewrite Hfile;
    try (unfold bind at 1, try_except, bind at 1, json_load; rewrite Hfile);
    try reflexivity.
  - eexists _, _. split; [reflexivity | discriminate].
  - destruct v as [| | | | |d];
      try (eexists _, _; split; [reflexivity | discriminate]).
    unfold bind at 1. cbn [py_items ret]. unfold bind at 1.
    destruct (migrate_loop_value d d false w) as [data' [migrated' [w' ->]]].
    destruct data' as [|e data'].
    + eexists _, _. split; [reflexivity | discriminate].
    + destruct migrated'; eexists _, _; (split; [reflexivity | discriminate]).
  - eexists _, _. split; [reflexivity | discriminate].
Qed.

(** On a file that is absent or decodable, [load_conversations] returns,
    and what it returns has a conversation. *)
Lemma load_conversations_nonempty w :
  decodable w ->
  exists d w', load_conversations w = (Value d, w') /\ d <> [].
Proof.
  intros Hdec. destruct (load_conversations_outcome w) as [H | [e [_ Hno]]];
    [exact H | contradiction].
Qed.

(** Whatever [load_conversations] returns has a conversation. *)
Lemma load_conversations_returned_nonempty w d w' :
  load_conversations w = (Value d, w') -> d <> [].
Proof.
  intros Hload. destruct (load_conversations_outcome w) as [[d0 [w0 [H Hne]]] | [e [H _]]];
    rewrite H in Hload; [|discriminate].
  injection Hload as <- _. exact Hne.
Qed.

(** When the chat-history file is missing, or holds a text that
    [json.load] rejects with [JSONDecodeError] (the empty file is one),
    or holds the empty mapping, [load_conversations] returns exactly one
    conversation, named "Chat 1", with an empty message list and the
    clock's current reading as [created_at]. *)
Lemma load_conversations_default w :
  chats_json w = None \/ chats_json w = Some Unparseable \/
  chats_json w = Some (Encodes (JDict [])) ->
  fst (load_conversations w) =
  Value [("Chat 1", JDict [("created_at", JStr (clock w (ticks w)));
                           ("messages", JList [])])].
Proof.
  intros [H | [H | H]];
    unfold load_conversations, os_path_exists, gets, bind at 1; rewrite H;
    [reflexivity| |];
    unfold bind at 1, try_except, bind at 1, json_load; rewrite H; reflexivity.
Qed.

(** C1. The property fails on the code: a chat-history file that is not
    JSON because its bytes are not UTF-8 text makes [load_conversations]
    raise [UnicodeDecodeError] instead of returning "Chat 1", and a file
    that opens more brackets than the interpreter follows makes it raise
    [RecursionError]: the handler for "empty or corrupted" files lists
    neither exception. The world is left as it was. *)
Theorem load_conversations_raises_on_corrupt_file w :
  (chats_json w = Some NotUtf8 ->
   load_conversations w = (Raised UnicodeDecodeError, w)) /\
  (chats_json w = Some TooDeep ->
   load_conversations w = (Raised RecursionError, w)).
Proof.
  split; intros H;
    unfold load_conversations, os_path_exists, gets, bind at 1; rewrite H;
    unfold bind at 1, try_except, bind at 1, json_load; rewrite H; reflexivity.
Qed.

Lemma load_conversations_raises_on_corrupt_file_witness :
  load_conversations (mkWorld (Some NotUtf8) None (fun _ => "2024-01-01T00:00:00") 0) =
  (Raised UnicodeDecodeError,
   mkWorld (Some NotUtf8) None (fun _ => "2024-01-01T00:00:00") 0).
Proof.
  apply (proj1 (load_conversations_raises_on_corrupt_file
                  (mkWorld (Some NotUtf8) None (fun _ => "2024-01-01T00:00:00") 0))).
  reflexivity.
Defined.

(** C2. When the file holds a mapping with at least one legacy entry (a
  chat name mapped to a bare list of messages), [load_conversations]
  returns the mapping with the same names in the same order, each
  legacy entry replaced by the record whose [created_at] is a clock
  reading taken during the load and whose [messages] is the original
  list, every other entry as it was; the result is what the file holds
  afterwards. If every entry was legacy or canonical, every entry of
  the result is canonical, and saving the result leaves that canonical
  mapping in the file. *)
Theorem load_conversations_migrates w (d : dict) :
  chats_json w = Some (Encodes (JDict d)) ->
  PyDict.wf d ->
  (exists k msgs, In (k, JList msgs) d) ->
  exists d' w',
    load_conversations w = (Value d', w') /\
    Forall2 (migrated_entry w w') d d' /\
    chats_json w' = Some (Encodes (JDict d')) /\
    (Forall legacy_or_canonical d -> Forall canonical_entry d') /\
    chats_json (snd (save_conversations d' w')) = Some (Encodes (JDict d')).
Proof.
  intros Hfile Hwf [k [msgs Hin]].
  assert (Hne : d <> []) by (intros ->; exact Hin).
  pose proof (load_conversations_decoded w d Hfile Hwf Hne) as Hload.
  rewrite (existsb_legacy d k msgs Hin) in Hload. cbv zeta in Hload.
  pose proof (migrate_from_rel (clock w) d (ticks w)) as [_ HF].
  destruct (migrate_from (clock w) (ticks w) d) as [d' n']. cbn [fst snd] in *.
  exists d', (saved d' (with_ticks n' w)).
  split; [exact Hload|]. split; [exact HF|]. split; [reflexivity|].
  split; [|reflexivity].
  intros Hall. clear Hload Hin Hne Hwf Hfile.
  induction HF as [|old new d d' Hrel HF IH]; [constructor|].
  inversion Hall; subst. constructor; [|apply IH; assumption].
  eapply entry_rel_canonical; eassumption.
Qed.

Lemma load_conversations_migrates_witness :
  exists w',
    load_conversations legacy_world =
      (Value [("Old", JDict [("created_at", JStr "2024-01-01T00:00:00");
                             ("messages", JList [JStr "hi"])])], w') /\
    chats_json w' =
      Some (Encodes (JDict [("Old", JDict [("created_at", JStr "2024-01-01T00:00:00");
                                           ("messages", JList [JStr "hi"])])])).
Proof.
  destruct (load_conversations_migrates legacy_world [("Old", JList [JStr "hi"])] eq_refl)
    as [d' [w' [Hload [Hentries [Hfile _]]]]].
  - repeat constructor. simpl. tauto.
  - exists "Old", [JStr "hi"]. left. reflexivity.
  - assert (Hd' : d' = [("Old", JDict [("created_at", JStr "2024-01-01T00:00:00");
                                       ("messages", JList [JStr "hi"])])]).
    { inversion Hentries as [|old new rest rest' Hrel Hrest]; subst.
      inversion Hrest; subst. destruct new as [name record].
      unfold migrated_entry in Hrel. cbn in Hrel.
      destruct Hrel as [Hname [n [_ Hrecord]]]. subst. reflexivity. }
    subst d'. exists w'. split; [exact Hload | exact Hfile].
Defined.

Lemma migrate_from_no_legacy clk (d : dict) : forall n,
  Forall canonical_entry d -> migrate_from clk n d = (d, n).
Proof.
  induction d as [|[k v] rest IH]; intros n Hall; [reflexivity|].
  inversion Hall as [|? ? Hv Hrest]; subst. cbn [migrate_from].
  unfold canonical_entry in Hv. cbn [snd] in Hv.
  destruct v; try discriminate. cbn [is_list]. rewrite IH by exact Hrest. reflexivity.
Qed.

Lemma existsb_no_legacy (d : dict) :
  Forall canonical_entry d -> existsb entry_is_list d = false.
Proof.
  induction 1 as [|[k v] rest Hv _ IH]; [reflexivity|].
  cbn [existsb]. rewrite IH, orb_false_r.
  unfold canonical_entry in Hv. unfold entry_is_list. cbn [snd] in *.
  destruct v; try discriminate. reflexivity.
Qed.

(** C3, as the code has it. For every non-empty well-formed mapping [x]
  from chat names to canonical records, [save_conversations x]
  followed by [load_conversations] returns [x], and leaves [x] in the
  file. *)
Theorem save_then_load w (x : dict) :
  x <> [] -> PyDict.wf x -> Forall canonical_entry x ->
  (save_conversations x;; load_conversations) w = (Value x, saved x w).
Proof.
  intros Hne Hwf Hall. unfold bind. rewrite save_conversations_spec.
  rewrite (load_conversations_decoded (saved x w) x eq_refl Hwf Hne).
  cbn [clock ticks saved].
  rewrite migrate_from_no_legacy, existsb_no_legacy by exact Hall.
  reflexivity.
Qed.

Lemma save_then_load_witness :
  (save_conversations (default_conversations "2024-01-01T00:00:00");;
   load_conversations) (mkWorld None None (fun _ => "2025-01-01T00:00:00") 0) =
  (Value (default_conversations "2024-01-01T00:00:00"),
   saved (default_conversations "2024-01-01T00:00:00")
         (mkWorld None None (fun _ => "2025-01-01T00:00:00") 0)).
Proof.
  apply (save_then_load (mkWorld None None (fun _ => "2025-01-01T00:00:00") 0)
                        (default_conversations "2024-01-01T00:00:00")).
  - discriminate.
  - repeat constructor. simpl. tauto.
  - repeat constructor.
Defined.

(** The empty mapping is well formed, and it does not come back:
    saving it and loading again gives the default conversation. *)
Lemma save_then_load_empty :
  PyDict.wf [] /\ Forall canonical_entry [] /\
  fst ((save_conversations [];; load_conversations)
         (mkWorld None None (fun _ => "2024-01-01T00:00:00") 0)) =
    Value (default_conversations "2024-01-01T00:00:00") /\
  fst ((save_conversations [];; load_conversations)
         (mkWorld None None (fun _ => "2024-01-01T00:00:00") 0)) <> Value [].
Proof.
  split; [constructor|]. split; [constructor|].
  split; [reflexivity | discriminate].
Qed.

End Store.

(** ** Sorting *)

Module Sorting.

Lemma string_leb_refl s : String.leb s s = true.
Proof. destruct (String.leb_total s s); assumption. Qed.

Lemma string_leb_trans : forall s1 s2 s3,
  String.leb s1 s2 = true -> String.leb s2 s3 = true -> String.leb s1 s3 = true.
Proof.
  unfold String.leb.
  induction s1 as [|c1 s1 IH]; intros [|c2 s2] [|c3 s3]; cbn [String.compare];
    try reflexivity; try discriminate.
  unfold Ascii.compare.
  destruct (N.compare_spec (N_of_ascii c1) (N_of_ascii c2)) as [E12|L12|G12];
    destruct (N.compare_spec (N_of_ascii c2) (N_of_ascii c3)) as [E23|L23|G23];
    destruct (N.compare_spec (N_of_ascii c1) (N_of_ascii c3)) as [E13|L13|G13];
    try reflexivity; try discriminate; try (exfalso; lia).
  apply IH.
Qed.

Section Facts.
Context {A : Type} (key : A -> string).

Lemma insert_by_perm x l : Permutation (insert_by key x l) (x :: l).
Proof.
  induction l as [|y l IH]; cbn [insert_by]; [reflexivity|].
  destruct (String.leb (key x) (key y)); [reflexivity|].
  rewrite IH. apply perm_swap.
Qed.

Lemma stable_sort_perm l : Permutation (stable_sort key l) l.
Proof.
  induction l as [|x l IH]; cbn [stable_sort]; [reflexivity|].
  rewrite insert_by_perm, IH. reflexivity.
Qed.

Lemma insert_by_sorted x l :
  StronglySorted (ascending key) l -> StronglySorted (ascending key) (insert_by key x l).
Proof.
  induction 1 as [|y l Hl IH Hy]; cbn [insert_by].
  - repeat constructor.
  - destruct (String.leb (key x) (key y)) eqn:Hxy.
    + constructor; [constructor; assumption|].
      constructor; [exact Hxy|].
      eapply Forall_impl; [|exact Hy].
      intros z Hz. unfold ascending in *. eapply string_leb_trans; eassumption.
    + constructor; [exact IH|].
      assert (Hyx : ascending key y x).
      { unfold ascending. destruct (String.leb_total (key x) (key y)); congruence. }
      eapply Permutation_Forall; [symmetry; apply insert_by_perm|].
      constructor; assumption.
Qed.

Lemma stable_sort_sorted l : StronglySorted (ascending key) (stable_sort key l).
Proof.
  induction l as [|x l IH]; cbn [stable_sort]; [constructor|].
  apply insert_by_sorted, IH.
Qed.

(** Inserting [x] passes only elements whose key differs from its own. *)
Lemma insert_by_filter k x l :
  filter (fun a => String.eqb (key a) k) (insert_by key x l) =
  filter (fun a => String.eqb (key a) k) (x :: l).
Proof.
  induction l as [|y l IH]; cbn [insert_by]; [reflexivity|].
  destruct (String.leb (key x) (key y)) eqn:Hxy; [reflexivity|].
  cbn [filter] in *. rewrite IH.
  destruct (String.eqb_spec (key x) k) as [Hx|Hx];
    destruct (String.eqb_spec (key y) k) as [Hy|Hy]; try reflexivity.
  rewrite Hx, Hy, string_leb_refl in Hxy. discriminate.
Qed.

Lemma stable_sort_filter k l :
  filter (fun a => String.eqb (key a) k) (stable_sort key l) =
  filter (fun a => String.eqb (key a) k) l.
Proof.
  induction l as [|x l IH]; cbn [stable_sort]; [reflexivity|].
  rewrite insert_by_filter. cbn [filter]. rewrite IH. reflexivity.
Qed.

Lemma sorted_snoc (R : A -> A -> Prop) l x :
  StronglySorted R l -> Forall (fun y => R y x) l -> StronglySorted R (l ++ [x]).
Proof.
  induction 1 as [|y l Hl IH Hy]; intros Hx; cbn [app].
  - repeat constructor.
  - inversion Hx; subst. constructor; [apply IH; assumption|].
    apply Forall_app. split; [exact Hy | repeat constructor; assumption].
Qed.

Lemma sorted_rev l :
  StronglySorted (ascending key) l -> StronglySorted (descending key) (rev l).
Proof.
  induction 1 as [|y l Hl IH Hy]; cbn [rev]; [constructor|].
  apply sorted_snoc; [exact IH|].
  apply Forall_rev. exact Hy.
Qed.

Lemma sorted_reverse_perm l : Permutation (sorted_reverse key l) l.
Proof.
  unfold sorted_reverse.
  rewrite <- Permutation_rev, stable_sort_perm, <- Permutation_rev. reflexivity.
Qed.

Lemma sorted_reverse_sorted l : StronglySorted (descending key) (sorted_reverse key l).
Proof. apply sorted_rev, stable_sort_sorted. Qed.

Lemma sorted_reverse_stable k l :
  filter (fun a => String.eqb (key a) k) (sorted_reverse key l) =
  filter (fun a => String.eqb (key a) k) l.
Proof.
  unfold sorted_reverse.
  rewrite filter_rev, stable_sort_filter, filter_rev, rev_involutive. reflexivity.
Qed.

End Facts.

Section Decorated.
Context {A B : Type} (key : A -> string) (key' : B -> string) (f : A -> B).
Hypothesis key_f : forall a, key' (f a) = key a.

Lemma insert_by_map x l :
  insert_by key' (f x) (map f l) = map f (insert_by key x l).
Proof.
  induction l as [|y l IH]; cbn [insert_by map]; [reflexivity|].
  rewrite !key_f. destruct (String.leb (key x) (key y)); [reflexivity|].
  cbn [map]. rewrite IH. reflexivity.
Qed.

Lemma stable_sort_map l :
  stable_sort key' (map f l) = map f (stable_sort key l).
Proof.
  induction l as [|x l IH]; cbn [stable_sort map]; [reflexivity|].
  rewrite IH. apply insert_by_map.
Qed.

Lemma sorted_reverse_map l :
  sorted_reverse key' (map f l) = map f (sorted_reverse key l).
Proof.
  unfold sorted_reverse. rewrite <- map_rev, stable_sort_map, map_rev. reflexivity.
Qed.

End Decorated.

Lemma with_keys_keyed (convs : dict) :
  Forall (fun item => created_at_key item <> None) convs ->
  with_keys convs = Some (map keyed convs).
Proof.
  induction 1 as [|item rest Hitem _ IH]; cbn [with_keys map]; [reflexivity|].
  rewrite IH. unfold keyed, created_at.
  destruct (created_at_key item); [reflexivity | contradiction].
Qed.

(** [sorted_chats] is the stable descending sort by [created_at]. *)
Lemma sorted_chats_sorted_reverse (convs : dict) :
  Forall (fun item => created_at_key item <> None) convs ->
  sorted_chats convs = Some (sorted_reverse created_at convs).
Proof.
  intros H. unfold sorted_chats. rewrite (with_keys_keyed convs H).
  rewrite (sorted_reverse_map created_at fst keyed) by reflexivity.
  rewrite map_map. cbn [keyed snd]. rewrite map_id. reflexivity.
Qed.

Section KeyExt.
Context {A : Type} (key key' : A -> string).

Lemma insert_by_ext x l :
  key x = key' x -> Forall (fun y => key y = key' y) l ->
  insert_by key x l = insert_by key' x l.
Proof.
  intros Hx. induction 1 as [|y l Hy _ IH]; cbn [insert_by]; [reflexivity|].
  rewrite Hx, Hy, IH. reflexivity.
Qed.

Lemma stable_sort_ext l :
  Forall (fun y => key y = key' y) l -> stable_sort key l = stable_sort key' l.
Proof.
  induction 1 as [|x l Hx Hl IH]; cbn [stable_sort]; [reflexivity|].
  rewrite <- IH. apply insert_by_ext; [exact Hx|].
  eapply Permutation_Forall; [symmetry; apply stable_sort_perm | exact Hl].
Qed.

Lemma sorted_reverse_ext l :
  Forall (fun y => key y = key' y) l -> sorted_reverse key l = sorted_reverse key' l.
Proof.
  intros H. unfold sorted_reverse. rewrite stable_sort_ext; [reflexivity|].
  apply Forall_rev, H.
Qed.

End KeyExt.

Lemma dated_key item : dated item -> created_at_key item = Some (created_at_of item).
Proof.
  intros [record [Hrecord Hfield]]. unfold created_at_key, created_at_of.
  rewrite Hrecord. destruct Hfield as [-> | [ts ->]]; reflexivity.
Qed.

(** On dated chats, [sorted_chats] is the stable descending sort by the
    creation time. *)
Lemma sorted_chats_by_created_at (convs : dict) :
  Forall dated convs ->
  sorted_chats convs = Some (sorted_reverse created_at_of convs).
Proof.
  intros H.
  rewrite sorted_chats_sorted_reverse.
  - f_equal. apply sorted_reverse_ext.
    eapply Forall_impl; [|exact H].
    intros item Hitem. unfold created_at. rewrite (dated_key item Hitem). reflexivity.
  - eapply Forall_impl; [|exact H].
    intros item Hitem. rewrite (dated_key item Hitem). discriminate.
Qed.

(** C8. When every conversation is a record whose "created_at", if it
    has one, is a string, the sidebar lists the chats in an order that
    is a rearrangement of the store, descending by creation time (most
    recent first; a record without "created_at" counts as created at
    [datetime.min]), with chats of equal creation time in the order in
    which the store holds them. *)
Theorem sorted_chats_spec (convs : dict) :
  Forall dated convs ->
  exists l,
    sorted_chats convs = Some l /\
    list_chats_sorted convs = Some (map fst l) /\
    Permutation l convs /\
    StronglySorted
      (fun a b => String.leb (created_at_of b) (created_at_of a) = true) l /\
    (forall ts,
       filter (fun item => String.eqb (created_at_of item) ts) l =
       filter (fun item => String.eqb (created_at_of item) ts) convs).
Proof.
  intros H. exists (sorted_reverse created_at_of convs).
  split; [apply sorted_chats_by_created_at, H|].
  split; [unfold list_chats_sorted; rewrite sorted_chats_by_created_at by exact H;
          reflexivity|].
  split; [apply sorted_reverse_perm|].
  split; [apply (sorted_reverse_sorted created_at_of)|].
  intros ts. apply sorted_reverse_stable.
Qed.

Lemma sorted_chats_spec_witness :
  list_chats_sorted
    [("a", JDict [("created_at", JStr "2024-01-01T00:00:00"); ("messages", JList [])]);
     ("b", JDict [("created_at", JStr "2024-01-02T00:00:00"); ("messages", JList [])]);
     ("c", JDict [("created_at", JStr "2024-01-01T00:00:00"); ("messages", JList [])])] =
  Some ["b"; "a"; "c"].
Proof.
  destruct (sorted_chats_spec
    [("a", JDict [("created_at", JStr "2024-01-01T00:00:00"); ("messages", JList [])]);
     ("b", JDict [("created_at", JStr "2024-01-02T00:00:00"); ("messages", JList [])]);
     ("c", JDict [("created_at", JStr "2024-01-01T00:00:00"); ("messages", JList [])])])
    as [l [_ [Hnames [Hperm [Hsorted Hstable]]]]].
  - repeat constructor; eexists; (split; [reflexivity|]); right; eexists; reflexivity.
  - rewrite Hnames. f_equal.
    (* the three properties leave one order *)
    pose proof (Hstable "2024-01-01T00:00:00") as Hold.
    pose proof (Hstable "2024-01-02T00:00:00") as Hnew.
    cbn in Hold, Hnew.
    pose proof (Permutation_length Hperm) as Hlen.
    destruct l as [|x [|y [|z [|]]]]; try discriminate Hlen.
    inversion Hsorted as [|? ? Hyz Hx]; subst.
    inversion Hx as [|? ? Hxy Hxz']; subst. inversion Hxz' as [|? ? Hxz _]; subst.
    inversion Hyz as [|? ? _ Hy]; subst. inversion Hy as [|? ? Hyz' _]; subst.
    cbn [filter] in Hold, Hnew.
    destruct (String.eqb_spec (created_at_of x) "2024-01-01T00:00:00") as [Ex|Ex];
    destruct (String.eqb_spec (created_at_of y) "2024-01-01T00:00:00") as [Ey|Ey];
    destruct (String.eqb_spec (created_at_of z) "2024-01-01T00:00:00") as [Ez|Ez];
    try discriminate Hold;
    destruct (String.eqb_spec (created_at_of x) "2024-01-02T00:00:00") as [Fx|Fx];
    destruct (String.eqb_spec (created_at_of y) "2024-01-02T00:00:00") as [Fy|Fy];
    destruct (String.eqb_spec (created_at_of z) "2024-01-02T00:00:00") as [Fz|Fz];
    try discriminate Hnew; try congruence;
    repeat match goal with
           | H : [_] = [_] |- _ => injection H as H; subst
           | H : [_; _] = [_; _] |- _ => injection H as ? ?; subst
           end;
    try reflexivity;
    try (rewrite Ex, Fy in Hxy; discriminate Hxy);
    try (rewrite Ex, Fz in Hxz; discriminate Hxz);
    try (rewrite Ey, Fz in Hyz'; discriminate Hyz').
Defined.

Example list_chats_sorted_three : list_chats_sorted three_chats = Some ["b"; "a"; "c"].
Proof. reflexivity. Qed.

End Sorting.

(** ** The chat controller *)

Module Controller.

Lemma chat_name_of_inj n m : chat_name_of n = chat_name_of m -> n = m.
Proof.
  unfold chat_name_of. intros H. cbn in H. injection H as H.
  apply Unsigned.to_uint_inj.
  pose proof (NilEmpty.usu (Nat.to_uint n)) as Hn.
  rewrite H, NilEmpty.usu in Hn. congruence.
Qed.

Lemma candidates_NoDup len n : forall i,
  NoDup (map (fun j => chat_name_of (len + j)) (seq i n)).
Proof.
  induction n as [|n IH]; intros i; cbn [seq map]; constructor; [|apply IH].
  intros Hin. apply in_map_iff in Hin. destruct Hin as [j [Hj Hseq]].
  apply chat_name_of_inj in Hj. apply in_seq in Hseq. lia.
Qed.

(** The loop stops only at a name that is not taken. *)
Lemma find_new_chat_name_Some fuel (d : dict) : forall i name,
  find_new_chat_name fuel d i = Some name ->
  exists j, i <= j /\ name = chat_name_of (PyDict.len d + j) /\
            PyDict.contains name d = false.
Proof.
  induction fuel as [|fuel IH]; intros i name H; cbn [find_new_chat_name] in H;
    [discriminate|].
  destruct (PyDict.contains (chat_name_of (PyDict.len d + i)) d) eqn:E; cbn [negb] in H.
  - apply IH in H. destruct H as [j [Hj H]]. exists j. split; [lia | exact H].
  - injection H as <-. exists i. auto.
Qed.

(** A loop that runs out of fuel has found every candidate taken. *)
Lemma find_new_chat_name_None fuel (d : dict) : forall i,
  find_new_chat_name fuel d i = None ->
  incl (map (fun j => chat_name_of (PyDict.len d + j)) (seq i fuel)) (PyDict.keys d).
Proof.
  induction fuel as [|fuel IH]; intros i H; cbn [find_new_chat_name seq map] in *.
  - apply incl_nil_l.
  - destruct (PyDict.contains (chat_name_of (PyDict.len d + i)) d) eqn:E; cbn [negb] in H;
      [|discriminate].
    apply incl_cons; [apply contains_In, E|].
    rewrite Nat.add_1_r in H. apply IH, H.
Qed.

(** One iteration more than there are conversations is enough. *)
Lemma find_new_chat_name_total fuel (d : dict) i :
  PyDict.len d < fuel -> find_new_chat_name fuel d i <> None.
Proof.
  intros Hfuel Hnone. apply find_new_chat_name_None in Hnone.
  apply NoDup_incl_length in Hnone; [|apply candidates_NoDup].
  unfold PyDict.keys, PyDict.len in *. rewrite !length_map, length_seq in Hnone. lia.
Qed.

(** What the "New Chat" button does once its loop has chosen a name. *)
Lemma new_chat_button_run fuel a name :
  find_new_chat_name fuel (conversations (session a)) 1 = Some name ->
  new_chat_button fuel a =
  Some (Rerun,
        let convs := PyDict.setitem name
                       (conversation (clock (world a) (ticks (world a))) (JList []))
                       (conversations (session a)) in
        mkApp (mkSession convs name (show_share_dialog_for (session a))
                         (show_rename_dialog_for (session a))
                         (chat_input_key (session a)))
              (saved convs (with_ticks (S (ticks (world a))) (world a)))
              (shown a)).
Proof.
  intros H. unfold new_chat_button. rewrite H. reflexivity.
Qed.

(** C7. The "New Chat" button always ends (with a rerun), and the name it
    chooses has the form "Chat N", is not the name of an existing
    conversation, is appended with an empty message list and the clock's
    current reading, becomes the active conversation, and is saved. From
    a store whose only conversation is "Chat 1", pressing the button
    twice creates "Chat 2" and then "Chat 3". *)
Theorem create_chat_spec a :
  (exists n a',
     handle NewChat a = Some (Rerun, a') /\
     PyDict.contains (chat_name_of n) (conversations (session a)) = false /\
     conversations (session a') =
       conversations (session a) ++
       [(chat_name_of n,
         JDict [("created_at", JStr (clock (world a) (ticks (world a))));
                ("messages", JList [])])] /\
     current_chat (session a') = chat_name_of n /\
     chats_json (world a') = Some (Encodes (JDict (conversations (session a'))))) /\
  (PyDict.keys (conversations (session a)) = ["Chat 1"] ->
   exists a1 a2,
     handle NewChat a = Some (Rerun, a1) /\
     current_chat (session a1) = "Chat 2" /\
     PyDict.keys (conversations (session a1)) = ["Chat 1"; "Chat 2"] /\
     handle NewChat a1 = Some (Rerun, a2) /\
     current_chat (session a2) = "Chat 3" /\
     PyDict.keys (conversations (session a2)) = ["Chat 1"; "Chat 2"; "Chat 3"]).
Proof.
  split.
  - cbn [handle].
    destruct (find_new_chat_name (S (PyDict.len (conversations (session a))))
                                 (conversations (session a)) 1) as [name|] eqn:Hfind.
    + destruct (find_new_chat_name_Some _ _ _ _ Hfind) as [j [_ [-> Hfresh]]].
      rewrite (new_chat_button_run _ _ _ Hfind). cbv zeta.
      rewrite setitem_fresh by (apply contains_false, Hfresh).
      eexists _, _. split; [reflexivity|]. cbn [session world conversations current_chat].
      repeat split; try reflexivity. exact Hfresh.
    + exfalso. revert Hfind. apply find_new_chat_name_total. lia.
  - intros Hkeys. destruct a as [[convs cur share rename key] w msgs].
    cbn [session conversations] in Hkeys.
    destruct convs as [|[k v] [|e convs]]; try discriminate.
    cbn in Hkeys. injection Hkeys as ->.
    eexists _, _. split; [reflexivity|]. split; [reflexivity|]. split; [reflexivity|].
    split; [reflexivity|]. split; reflexivity.
Qed.

Lemma create_chat_spec_witness :
  exists a1 a2,
    handle NewChat
      (mkApp (mkSession (default_conversations "2024-01-01T00:00:00") "Chat 1" None None 0)
             (mkWorld None None (fun _ => "2024-01-02T00:00:00") 0) []) =
      Some (Rerun, a1) /\
    current_chat (session a1) = "Chat 2" /\
    PyDict.keys (conversations (session a1)) = ["Chat 1"; "Chat 2"] /\
    handle NewChat a1 = Some (Rerun, a2) /\
    current_chat (session a2) = "Chat 3" /\
    PyDict.keys (conversations (session a2)) = ["Chat 1"; "Chat 2"; "Chat 3"].
Proof.
  apply (proj2 (create_chat_spec
    (mkApp (mkSession (default_conversations "2024-01-01T00:00:00") "Chat 1" None None 0)
           (mkWorld None None (fun _ => "2024-01-02T00:00:00") 0) []))).
  reflexivity.
Defined.

Ltac run_script :=
  unfold when, on_session, show, in_world;
  unfold bind, gets, modify, ret, raise, st_rerun;
  cbn [session world shown conversations current_chat show_share_dialog_for
       show_rename_dialog_for chat_input_key fst snd
       set_conversations set_current_chat set_show_rename_dialog_for
       set_show_share_dialog_for].

Lemma truthy_Some s : s <> "" -> truthy (Some s) = true.
Proof.
  intros H. cbn [truthy]. destruct (String.eqb_spec s ""); [contradiction | reflexivity].
Qed.

(** C5. In the rename dialog for [old], submitting a new name that is
    empty, equal to [old], or already the name of a conversation leaves
    the conversations, the active chat and the file as they were: an
    empty name shows "Chat name cannot be empty.", the unchanged name
    shows the warning "New name is the same as the old name." (and
    closes the dialog), a name already in use shows "A chat with this
    name already exists.". *)
Theorem rename_rejected a old new :
  show_rename_dialog_for (session a) = Some old -> old <> "" ->
  new = "" \/ new = old \/ PyDict.contains new (conversations (session a)) = true ->
  let r := fst (rename_dialog new true false a) in
  let a' := snd (rename_dialog new true false a) in
  conversations (session a') = conversations (session a) /\
  current_chat (session a') = current_chat (session a) /\
  world a' = world a /\
  (new = "" ->
   r = Value tt /\ shown a' = shown a ++ [ErrorBox "Chat name cannot be empty."]) /\
  (new = old ->
   r = Rerun /\
   shown a' = shown a ++ [WarningBox "New name is the same as the old name."]) /\
  (new <> "" -> new <> old ->
   r = Value tt /\
   shown a' = shown a ++ [ErrorBox "A chat with this name already exists."]).
Proof.
  intros Hdialog Hold Hcase.
  destruct a as [[convs cur share rename key] w msgs].
  cbn [session show_rename_dialog_for conversations] in Hdialog, Hcase. subst rename.
  unfold rename_dialog. run_script. rewrite (truthy_Some old Hold).
  destruct (String.eqb_spec new "") as [Hempty|Hnonempty]; cbn [negb andb].
  - destruct (String.eqb_spec new old) as [Hsame|Hdiff]; [congruence|].
    cbn. repeat split; try reflexivity; try congruence.
  - destruct (String.eqb_spec new old) as [Hsame|Hdiff]; cbn [negb].
    + cbn. repeat split; try reflexivity; congruence.
    + destruct Hcase as [?|[?|Hdup]]; try congruence.
      run_script. rewrite Hdup. cbn. repeat split; try reflexivity; congruence.
Qed.

Lemma rename_rejected_witness :
  let a := mkApp (mkSession [("A", conversation "1" (JList [])); ("B", conversation "2" (JList []))]
                            "A" None (Some "A") 0)
                 (mkWorld None None (fun _ => "3") 0) [] in
  conversations (session (snd (rename_dialog "B" true false a))) = conversations (session a) /\
  shown (snd (rename_dialog "B" true false a)) =
    [ErrorBox "A chat with this name already exists."].
Proof.
  cbv zeta.
  pose proof (rename_rejected
    (mkApp (mkSession [("A", conversation "1" (JList [])); ("B", conversation "2" (JList []))]
                      "A" None (Some "A") 0)
           (mkWorld None None (fun _ => "3") 0) [])
    "A" "B" eq_refl ltac:(discriminate) (or_intror (or_intror eq_refl))) as H.
  cbv zeta in H. destruct H as [Hc [_ [_ [_ [_ Hdup]]]]].
  split; [exact Hc|].
  exact (proj2 (Hdup ltac:(discriminate) ltac:(discriminate))).
Defined.

(** A rename that goes through: the run of the dialog's submit branch. *)
Lemma rename_dialog_run a old new v :
  show_rename_dialog_for (session a) = Some old -> old <> "" ->
  new <> "" -> new <> old ->
  PyDict.contains new (conversations (session a)) = false ->
  PyDict.get old (conversations (session a)) = Some v ->
  rename_dialog new true false a =
  (Rerun,
   let convs := PyDict.remove old (conversations (session a)) ++ [(new, v)] in
   mkApp (mkSession convs
                    (if String.eqb (current_chat (session a)) old
                     then new else current_chat (session a))
                    (show_share_dialog_for (session a)) None
                    (chat_input_key (session a)))
         (saved convs (world a))
         (shown a)).
Proof.
  intros Hdialog Hold Hnonempty Hdiff Hfresh Hget.
  destruct a as [[convs cur share rename key] w msgs].
  cbn [session show_rename_dialog_for conversations current_chat world shown
       show_share_dialog_for chat_input_key] in *. subst rename.
  unfold rename_dialog. run_script. rewrite (truthy_Some old Hold).
  destruct (String.eqb_spec new ""); [contradiction|].
  destruct (String.eqb_spec new old); [contradiction|]. cbn [negb andb].
  run_script. rewrite Hfresh.
  unfold pop_conversation. run_script. rewrite Hget. run_script.
  rewrite setitem_fresh.
  - destruct (String.eqb cur old); reflexivity.
  - intros Hin. apply keys_remove_incl in Hin.
    apply contains_false in Hfresh. contradiction.
Qed.

(** C6. A rename that goes through (the dialog is open for [old], which
    is a conversation; [new] is not empty, differs from [old] and is not
    a conversation) ends with a rerun in a store where [new] maps to the
    record that was under [old], [old] is gone, every other name maps to
    what it did, the active chat is [new] if it was [old] and is
    unchanged otherwise, and the file holds the new store. *)
Theorem rename_replaces_key a old new v :
  show_rename_dialog_for (session a) = Some old -> old <> "" ->
  new <> "" -> new <> old ->
  PyDict.contains new (conversations (session a)) = false ->
  PyDict.get old (conversations (session a)) = Some v ->
  PyDict.wf (conversations (session a)) ->
  exists a',
    rename_dialog new true false a = (Rerun, a') /\
    PyDict.get new (conversations (session a')) = Some v /\
    PyDict.get old (conversations (session a')) = None /\
    (forall k, k <> old -> k <> new ->
       PyDict.get k (conversations (session a')) =
       PyDict.get k (conversations (session a))) /\
    (current_chat (session a) = old -> current_chat (session a') = new) /\
    (current_chat (session a) <> old ->
       current_chat (session a') = current_chat (session a)) /\
    chats_json (world a') = Some (Encodes (JDict (conversations (session a')))).
Proof.
  intros Hdialog Hold Hnonempty Hdiff Hfresh Hget Hwf.
  eexists. split; [apply rename_dialog_run; eassumption|].
  cbv zeta. cbn [session conversations current_chat world].
  assert (Hnew : PyDict.get new (PyDict.remove old (conversations (session a))) = None).
  { rewrite get_remove_other by exact Hdiff. apply get_None, contains_false, Hfresh. }
  repeat split.
  - rewrite get_app_fresh, Hnew, String.eqb_refl. reflexivity.
  - rewrite get_app_fresh, get_remove_same by exact Hwf.
    destruct (String.eqb_spec old new); [congruence | reflexivity].
  - intros k Hk1 Hk2. rewrite get_app_fresh, get_remove_other by exact Hk1.
    destruct (PyDict.get k (conversations (session a))); [reflexivity|].
    destruct (String.eqb_spec k new); [contradiction | reflexivity].
  - intros ->. rewrite String.eqb_refl. reflexivity.
  - intros Hcur. destruct (String.eqb_spec (current_chat (session a)) old);
      [contradiction | reflexivity].
Qed.

Lemma rename_replaces_key_witness :
  exists a',
    rename_dialog "C" true false two_chats = (Rerun, a') /\
    PyDict.get "C" (conversations (session a')) = Some (conversation "1" (JList [JStr "hi"])) /\
    PyDict.get "A" (conversations (session a')) = None /\
    (forall k, k <> "A" -> k <> "C" ->
       PyDict.get k (conversations (session a')) =
       PyDict.get k (conversations (session two_chats))) /\
    (current_chat (session two_chats) = "A" -> current_chat (session a') = "C") /\
    (current_chat (session two_chats) <> "A" ->
       current_chat (session a') = current_chat (session two_chats)) /\
    chats_json (world a') = Some (Encodes (JDict (conversations (session a')))).
Proof.
  apply (rename_replaces_key two_chats "A" "C" (conversation "1" (JList [JStr "hi"])));
    try reflexivity; try discriminate.
  repeat constructor; simpl; intuition discriminate.
Defined.

Lemma created_at_key_snd k k' v : created_at_key (k, v) = created_at_key (k', v).
Proof. reflexivity. Qed.

(** C10. A rename that goes through takes the conversation out of its
    place and puts it last: if the store was [before], then [old], then
    [after], it becomes [before], then [after], then [new], with the
    record that was under [old]. So the first conversation of the store,
    which "Delete" makes active, is the first of the others whenever
    there are others, and the sidebar lists the renamed chat after every
    other chat created at the same time. *)
Theorem rename_moves_to_end a old new v (before after : dict) :
  show_rename_dialog_for (session a) = Some old -> old <> "" ->
  new <> "" -> new <> old ->
  PyDict.contains new (conversations (session a)) = false ->
  conversations (session a) = before ++ (old, v) :: after ->
  ~ In old (PyDict.keys before) ->
  exists a',
    rename_dialog new true false a = (Rerun, a') /\
    conversations (session a') = before ++ after ++ [(new, v)] /\
    PyDict.keys (conversations (session a')) =
      PyDict.keys before ++ PyDict.keys after ++ [new] /\
    (forall other rest,
       before ++ after = other :: rest ->
       first_key (conversations (session a')) a' = (Value (fst other), a')) /\
    (Forall (fun item => created_at_key item <> None) (conversations (session a)) ->
     exists l,
       sorted_chats (conversations (session a')) = Some l /\
       filter (fun item => String.eqb (created_at item) (created_at (old, v))) l =
       filter (fun item => String.eqb (created_at item) (created_at (old, v)))
              (before ++ after) ++ [(new, v)]).
Proof.
  intros Hdialog Hold Hnonempty Hdiff Hfresh Hsplit Hbefore.
  assert (Hget : PyDict.get old (conversations (session a)) = Some v).
  { rewrite Hsplit. clear - Hbefore.
    induction before as [|[k0 v0] before IH]; cbn [app PyDict.get].
    - rewrite String.eqb_refl. reflexivity.
    - cbn in Hbefore. destruct (String.eqb_spec old k0); [subst; tauto|].
      apply IH. tauto. }
  eexists. split; [apply rename_dialog_run; eassumption|].
  cbv zeta. cbn [session conversations].
  rewrite Hsplit, remove_middle by exact Hbefore.
  rewrite <- app_assoc. split; [reflexivity|].
  split; [unfold PyDict.keys; rewrite !map_app; reflexivity|].
  split.
  - intros other rest Hothers. rewrite app_assoc, Hothers.
    destruct other as [k0 v0]. reflexivity.
  - intros Hkeys.
    apply Forall_app in Hkeys. destruct Hkeys as [Hb Hrest].
    inversion Hrest as [|? ? Hold_key Ha]; subst.
    assert (Hkeys' : Forall (fun item => created_at_key item <> None)
                            (before ++ after ++ [(new, v)])).
    { apply Forall_app. split; [exact Hb|]. apply Forall_app. split; [exact Ha|].
      constructor; [|constructor].
      rewrite (created_at_key_snd new old). exact Hold_key. }
    eexists. split; [apply Sorting.sorted_chats_sorted_reverse, Hkeys'|].
    rewrite Sorting.sorted_reverse_stable, app_assoc, filter_app. f_equal.
    cbn [filter]. unfold created_at. rewrite (created_at_key_snd new old).
    rewrite String.eqb_refl. reflexivity.
Qed.

Lemma rename_moves_to_end_witness :
  exists a',
    rename_dialog "C" true false two_chats = (Rerun, a') /\
    conversations (session a') =
      [("B", conversation "2" (JList [])); ("C", conversation "1" (JList [JStr "hi"]))] /\
    first_key (conversations (session a')) a' = (Value "B", a').
Proof.
  destruct (rename_moves_to_end two_chats "A" "C" (conversation "1" (JList [JStr "hi"]))
              [] [("B", conversation "2" (JList []))])
    as [a' [Hrun [Hconvs [_ [Hfirst _]]]]];
    try reflexivity; try discriminate.
  - intros [].
  - exists a'. split; [exact Hrun|]. split; [exact Hconvs|].
    exact (Hfirst _ _ eq_refl).
Defined.

(** Whatever the first run's initialisation returns has a conversation,
    and its active chat is the first one. *)
Lemma init_session_returned_nonempty w s w' :
  init_session w = (Value s, w') ->
  conversations s <> [] /\
  PyDict.contains (current_chat s) (conversations s) = true.
Proof.
  unfold init_session. unfold bind at 1.
  destruct (load_conversations w) as [[d|e|] w1] eqn:Hload; try discriminate.
  pose proof (Store.load_conversations_returned_nonempty w d w1 Hload) as Hne.
  destruct d as [|[k v] d]; [contradiction|].
  intros H. cbn in H. injection H as <- _.
  split; [discriminate|]. cbn. rewrite String.eqb_refl. reflexivity.
Qed.

(** The session state of a first run, on a file that is absent or
    decodable. *)
Lemma init_session_nonempty w :
  decodable w ->
  exists s w', init_session w = (Value s, w') /\ conversations s <> [] /\
               PyDict.contains (current_chat s) (conversations s) = true.
Proof.
  intros Hdec. unfold init_session.
  destruct (Store.load_conversations_nonempty w Hdec) as [d [w' [Hload Hne]]].
  unfold bind at 1. rewrite Hload.
  destruct d as [|[k v] d]; [contradiction|].
  eexists _, _. split; [reflexivity|]. split; [discriminate|].
  cbn. rewrite String.eqb_refl. reflexivity.
Qed.

Lemma delete_last_chat a chat_name :
  PyDict.len (conversations (session a)) = 1 ->
  delete_chat_button chat_name a =
  (Value tt,
   mkApp (session a) (world a) (shown a ++ [Toast "⚠️ Cannot delete the last chat."])).
Proof.
  intros Hlen. unfold delete_chat_button. run_script. rewrite Hlen. reflexivity.
Qed.

Lemma delete_keeps_nonempty a chat_name :
  conversations (session a) <> [] ->
  conversations (session (snd (delete_chat_button chat_name a))) <> [].
Proof.
  intros Hne. destruct a as [[convs cur share rename key] w msgs].
  cbn [session conversations] in Hne.
  unfold delete_chat_button, del_conversation. run_script.
  destruct (Nat.ltb_spec 1 (PyDict.len convs)) as [Hlen|Hlen]; [|exact Hne].
  run_script. destruct (PyDict.contains chat_name convs) eqn:Hin; [|exact Hne].
  run_script. pose proof (length_remove chat_name convs Hin) as Hrem.
  unfold PyDict.len in Hlen.
  destruct (PyDict.remove chat_name convs) as [|[k v] rest] eqn:Hr.
  - cbn in Hrem. lia.
  - cbn. discriminate.
Qed.

Lemma rename_keeps_nonempty a new_name submit_button cancel_button :
  conversations (session a) <> [] ->
  conversations (session (snd (rename_dialog new_name submit_button cancel_button a))) <> [].
Proof.
  intros Hne. destruct a as [[convs cur share rename key] w msgs].
  cbn [session conversations] in Hne.
  unfold rename_dialog, pop_conversation. run_script.
  destruct rename as [old|]; [|exact Hne].
  destruct (truthy (Some old)); [|exact Hne].
  destruct submit_button; run_script.
  - destruct (String.eqb new_name ""), (String.eqb new_name old); cbn [negb andb];
      run_script; try exact Hne;
      try (destruct cancel_button; run_script; exact Hne).
    destruct (PyDict.contains new_name convs); run_script.
    + destruct cancel_button; run_script; exact Hne.
    + destruct (PyDict.get old convs); run_script; [|exact Hne].
      destruct (String.eqb cur old); run_script; apply setitem_nonempty.
  - destruct cancel_button; run_script; exact Hne.
Qed.

(** No action empties the store. *)
Lemma handle_keeps_nonempty act a :
  conversations (session a) <> [] -> nonempty_after (handle act a).
Proof.
  intros Hne. destruct act; cbn [handle nonempty_after].
  - unfold new_chat_button.
    destruct (find_new_chat_name _ _ 1); [|exact I].
    run_script. apply setitem_nonempty.
  - exact Hne.
  - exact Hne.
  - exact Hne.
  - pose proof (delete_keeps_nonempty a chat_name Hne) as H.
    destruct (delete_chat_button chat_name a). exact H.
  - pose proof (rename_keeps_nonempty a new_name submit_button cancel_button Hne) as H.
    destruct (rename_dialog new_name submit_button cancel_button a). exact H.
Qed.

(** Every action is handled: the model's loop never runs out of fuel. *)
Lemma handle_total act a : handle act a <> None.
Proof.
  destruct act; cbn [handle]; try discriminate.
  unfold new_chat_button.
  destruct (find_new_chat_name _ _ 1) eqn:Hfind; [discriminate|].
  exfalso. revert Hfind. apply find_new_chat_name_total. lia.
Qed.

(** C4. At least one conversation always exists: what
    [load_conversations] returns is never empty, and it returns whenever
    the file is absent or decodable; so for the session state of a first
    run; the "Delete" button pressed when there is exactly one
    conversation only shows "Cannot delete the last chat." and changes
    nothing else; and no sequence of actions on a store that has a
    conversation leads to a store that has none. *)
Theorem store_never_empty :
  (forall w d w', load_conversations w = (Value d, w') -> d <> []) /\
  (forall w, decodable w ->
     exists d w', load_conversations w = (Value d, w') /\ d <> []) /\
  (forall w s w', init_session w = (Value s, w') -> conversations s <> []) /\
  (forall w, decodable w ->
     exists s w', init_session w = (Value s, w') /\ conversations s <> []) /\
  (forall a chat_name,
     PyDict.len (conversations (session a)) = 1 ->
     delete_chat_button chat_name a =
       (Value tt,
        mkApp (session a) (world a)
              (shown a ++ [Toast "⚠️ Cannot delete the last chat."])) /\
     PyDict.len (conversations (session (snd (delete_chat_button chat_name a)))) = 1) /\
  (forall acts a,
     conversations (session a) <> [] ->
     exists a', run acts a = Some a' /\ conversations (session a') <> []).
Proof.
  split; [exact Store.load_conversations_returned_nonempty|].
  split; [exact Store.load_conversations_nonempty|].
  split.
  { intros w s w' H. apply (init_session_returned_nonempty w s w' H). }
  split.
  { intros w Hdec. destruct (init_session_nonempty w Hdec) as [s [w' [H [Hne _]]]].
    exists s, w'. auto. }
  split.
  { intros a chat_name Hlen. rewrite (delete_last_chat a chat_name Hlen).
    split; [reflexivity | exact Hlen]. }
  induction acts as [|act acts IH]; intros a Hne; cbn [run].
  - exists a. auto.
  - pose proof (handle_keeps_nonempty act a Hne) as Hstep.
    pose proof (handle_total act a) as Htotal.
    destruct (handle act a) as [[r a1]|]; [|contradiction].
    apply IH, Hstep.
Qed.

Lemma store_never_empty_witness :
  delete_chat_button "Chat 1"
    (mkApp (mkSession (default_conversations "2024-01-01T00:00:00") "Chat 1" None None 0)
           (mkWorld None None (fun _ => "2024-01-02T00:00:00") 0) []) =
  (Value tt,
   mkApp (mkSession (default_conversations "2024-01-01T00:00:00") "Chat 1" None None 0)
         (mkWorld None None (fun _ => "2024-01-02T00:00:00") 0)
         [Toast "⚠️ Cannot delete the last chat."]) /\
  exists a',
    run [DeleteChat "Chat 1"; NewChat; DeleteChat "Chat 1"; DeleteChat "Chat 2"]
        (mkApp (mkSession (default_conversations "2024-01-01T00:00:00") "Chat 1" None None 0)
               (mkWorld None None (fun _ => "2024-01-02T00:00:00") 0) []) = Some a' /\
    conversations (session a') <> [].
Proof.
  split.
  - apply (proj1 (proj1 (proj2 (proj2 (proj2 (proj2 store_never_empty))))
       (mkApp (mkSession (default_conversations "2024-01-01T00:00:00") "Chat 1" None None 0)
              (mkWorld None None (fun _ => "2024-01-02T00:00:00") 0) [])
       "Chat 1" eq_refl)).
  - apply (proj2 (proj2 (proj2 (proj2 (proj2 store_never_empty))))). discriminate.
Defined.

End Controller.


(** ** The AI responder *)

Module Responder.

Import Llm.

Lemma prefix_append (s t : string) : String.prefix s (s ++ t)%string = true.
Proof.
  induction s as [|c s IH]; cbn [String.append String.prefix].
  - destruct t; reflexivity.
  - destruct (Ascii.ascii_dec c c); [exact IH | contradiction].
Qed.

Lemma prefix_refl (s : string) : String.prefix s s = true.
Proof.
  induction s as [|c s IH]; cbn [String.prefix]; [reflexivity|].
  destruct (Ascii.ascii_dec c c); [exact IH | contradiction].
Qed.







End Responder.

(** ** More on the store and the sidebar *)

Module Lifecycle.

Import Controller.

Lemma contains_remove_other k k' (d : dict) :
  k' <> k -> PyDict.contains k' (PyDict.remove k d) = PyDict.contains k' d.
Proof.
  intros Hne. induction d as [|[k0 v0] d IH]; cbn [PyDict.remove PyDict.contains];
    [reflexivity|].
  destruct (String.eqb_spec k k0) as [->|Hk].
  - destruct (String.eqb_spec k' k0); [congruence | reflexivity].
  - cbn [PyDict.contains]. rewrite IH. reflexivity.
Qed.

Lemma contains_app k (d1 d2 : dict) :
  PyDict.contains k (d1 ++ d2) = PyDict.contains k d1 || PyDict.contains k d2.
Proof.
  induction d1 as [|[k0 v0] d1 IH]; cbn [app PyDict.contains]; [reflexivity|].
  destruct (String.eqb k k0); [reflexivity | exact IH].
Qed.

Lemma contains_setitem k k' v (d : dict) :
  PyDict.contains k' (PyDict.setitem k v d) = String.eqb k' k || PyDict.contains k' d.
Proof.
  induction d as [|[k0 v0] d IH]; cbn [PyDict.setitem PyDict.contains].
  - rewrite orb_false_r. destruct (String.eqb k' k); reflexivity.
  - destruct (String.eqb_spec k k0) as [->|Hk]; cbn [PyDict.contains].
    + destruct (String.eqb k' k0); reflexivity.
    + rewrite IH. destruct (String.eqb k' k0), (String.eqb k' k); reflexivity.
Qed.

(** The "Delete" button on a chat of a store with several chats. *)
Lemma delete_chat_button_run a chat_name :
  1 < PyDict.len (conversations (session a)) ->
  PyDict.contains chat_name (conversations (session a)) = true ->
  exists k v rest,
    PyDict.remove chat_name (conversations (session a)) = (k, v) :: rest /\
    delete_chat_button chat_name a =
    (Rerun,
     mkApp (mkSession ((k, v) :: rest) k (show_share_dialog_for (session a))
                      (show_rename_dialog_for (session a)) (chat_input_key (session a)))
           (saved ((k, v) :: rest) (world a))
           (shown a)).
Proof.
  intros Hlen Hin. destruct a as [[convs cur share rename key] w msgs].
  cbn [session conversations world shown show_share_dialog_for show_rename_dialog_for
       chat_input_key] in *.
  pose proof (length_remove chat_name convs Hin) as Hrem. unfold PyDict.len in Hlen.
  destruct (PyDict.remove chat_name convs) as [|[k v] rest] eqn:Hr;
    [cbn in Hrem; lia|].
  exists k, v, rest. split; [reflexivity|].
  unfold delete_chat_button, del_conversation. run_script.
  destruct (Nat.ltb_spec 1 (PyDict.len convs)) as [_|Hge]; [|unfold PyDict.len in Hge; lia].
  run_script. rewrite Hin. run_script. rewrite Hr. reflexivity.
Qed.

(** X1. Pressing "Delete" on a chat of a store with at least two chats
    removes that chat, keeps the others with their records and order,
    makes the first remaining chat the active one, whichever chat was
    active before, saves the store and reruns. *)
Theorem delete_removes_chat a chat_name :
  1 < PyDict.len (conversations (session a)) ->
  PyDict.contains chat_name (conversations (session a)) = true ->
  PyDict.wf (conversations (session a)) ->
  exists a',
    delete_chat_button chat_name a = (Rerun, a') /\
    conversations (session a') = PyDict.remove chat_name (conversations (session a)) /\
    PyDict.get chat_name (conversations (session a')) = None /\
    (forall k, k <> chat_name ->
       PyDict.get k (conversations (session a')) =
       PyDict.get k (conversations (session a))) /\
    first_key (conversations (session a')) a' = (Value (current_chat (session a')), a') /\
    synced a' /\
    shown a' = shown a.
Proof.
  intros Hlen Hin Hwf.
  destruct (delete_chat_button_run a chat_name Hlen Hin) as [k [v [rest [Hr Hrun]]]].
  eexists. split; [exact Hrun|].
  cbn [session conversations current_chat world shown]. rewrite <- Hr.
  split; [reflexivity|].
  split; [apply get_remove_same, Hwf|].
  split; [intros k0 Hk0; apply get_remove_other, Hk0|].
  split; [rewrite Hr; reflexivity|].
  split; reflexivity.
Qed.

Lemma delete_removes_chat_witness :
  exists a',
    delete_chat_button "A" two_chats = (Rerun, a') /\
    conversations (session a') = [("B", conversation "2" (JList []))] /\
    current_chat (session a') = "B".
Proof.
  destruct (delete_removes_chat two_chats "A") as [a' [Hrun [Hconvs _]]].
  - cbn. lia.
  - reflexivity.
  - repeat constructor; simpl; intuition discriminate.
  - exists a'. split; [exact Hrun|]. split; [exact Hconvs|].
    vm_compute in Hrun. injection Hrun as <-. reflexivity.
Defined.

Lemma rename_missing_chat_raises a chat_name new_name :
  PyDict.contains chat_name (conversations (session a)) = false ->
  show_rename_dialog_for (session a) = Some chat_name -> chat_name <> "" ->
  new_name <> "" -> new_name <> chat_name ->
  PyDict.contains new_name (conversations (session a)) = false ->
  rename_dialog new_name true false a = (Raised (KeyError chat_name), a).
Proof.
  intros Hout. destruct a as [[convs cur share rename key] w msgs].
  cbn [session conversations show_rename_dialog_for] in *.
  intros -> Hold Hnonempty Hdiff Hfresh.
  unfold rename_dialog, pop_conversation. run_script. rewrite (truthy_Some _ Hold).
  destruct (String.eqb_spec new_name ""); [contradiction|].
  destruct (String.eqb_spec new_name chat_name); [contradiction|]. cbn [negb andb].
  run_script. rewrite Hfresh. run_script.
  apply contains_false, get_None in Hout. rewrite Hout. reflexivity.
Qed.

(** X2. The rename form outlives its chat. With several chats in the
    store, pressing "Rename" on a chat opens the form for it; pressing
    "Delete" on the same chat then removes the chat and leaves the form
    open; submitting the form (with a non-empty, different, unused name)
    then raises [KeyError] for the deleted chat and leaves everything as
    it was, the file included. *)
Theorem stale_chat_raises a chat_name new_name :
  1 < PyDict.len (conversations (session a)) ->
  PyDict.contains chat_name (conversations (session a)) = true ->
  PyDict.wf (conversations (session a)) ->
  chat_name <> "" -> new_name <> "" -> new_name <> chat_name ->
  PyDict.contains new_name (conversations (session a)) = false ->
  exists a1 a2,
    rename_dialog_button chat_name a = (Rerun, a1) /\
    delete_chat_button chat_name a1 = (Rerun, a2) /\
    show_rename_dialog_for (session a2) = Some chat_name /\
    PyDict.get chat_name (conversations (session a2)) = None /\
    rename_dialog new_name true false a2 = (Raised (KeyError chat_name), a2).
Proof.
  intros Hlen Hin Hwf Hold Hnonempty Hdiff Hfresh.
  destruct a as [[convs cur share rename key] w msgs].
  cbn [session conversations] in *.
  set (a1 := mkApp (mkSession convs cur share (Some chat_name) key) w msgs).
  destruct (delete_chat_button_run a1 chat_name Hlen Hin) as [k [v [rest [Hr Hrun]]]].
  cbn [a1 session conversations world shown show_share_dialog_for
       show_rename_dialog_for chat_input_key] in Hr, Hrun.
  exists a1. eexists. split; [reflexivity|]. split; [exact Hrun|].
  cbn [session conversations show_rename_dialog_for]. rewrite <- Hr.
  assert (Hgone : PyDict.get chat_name (PyDict.remove chat_name convs) = None).
  { apply get_remove_same, Hwf. }
  split; [reflexivity|]. split; [exact Hgone|].
  rewrite Hr. apply rename_missing_chat_raises;
    cbn [session conversations show_rename_dialog_for]; try assumption; try reflexivity.
  - rewrite <- Hr. apply contains_false, get_None, Hgone.
  - rewrite <- Hr. apply contains_false. intros Hkeys.
    apply contains_false in Hfresh. apply Hfresh.
    eapply keys_remove_incl, Hkeys.
Qed.

Lemma stale_chat_raises_witness :
  exists a1 a2,
    rename_dialog_button "A" two_chats = (Rerun, a1) /\
    delete_chat_button "A" a1 = (Rerun, a2) /\
    conversations (session a2) = [("B", conversation "2" (JList []))] /\
    show_rename_dialog_for (session a2) = Some "A" /\
    rename_dialog "C" true false a2 = (Raised (KeyError "A"), a2).
Proof.
  destruct (stale_chat_raises two_chats "A" "C") as [a1 [a2 [H1 [H2 [H3 [_ H5]]]]]].
  - cbn. lia.
  - reflexivity.
  - repeat constructor; simpl; intuition discriminate.
  - discriminate.
  - discriminate.
  - discriminate.
  - reflexivity.
  - exists a1, a2. split; [exact H1|]. split; [exact H2|].
    split; [|split; [exact H3 | exact H5]].
    vm_compute in H1. injection H1 as <-.
    vm_compute in H2. injection H2 as <-. reflexivity.
Defined.

Lemma rename_dialog_cases a new_name submit_button cancel_button
      (P : App -> Prop) :
  (forall share rename msgs,
     P (mkApp (mkSession (conversations (session a)) (current_chat (session a))
                         share rename (chat_input_key (session a)))
              (world a) msgs)) ->
  (forall old v share msgs,
     PyDict.get old (conversations (session a)) = Some v ->
     PyDict.contains new_name (conversations (session a)) = false ->
     P (mkApp (mkSession
                 (PyDict.setitem new_name v (PyDict.remove old (conversations (session a))))
                 (if String.eqb (current_chat (session a)) old
                  then new_name else current_chat (session a))
                 share None (chat_input_key (session a)))
              (saved (PyDict.setitem new_name v
                        (PyDict.remove old (conversations (session a)))) (world a))
              msgs)) ->
  P (snd (rename_dialog new_name submit_button cancel_button a)).
Proof.
  intros Hsame Hrenamed. destruct a as [[convs cur share rename key] w msgs].
  cbn [session conversations current_chat world chat_input_key] in *.
  unfold rename_dialog, pop_conversation. run_script.
  destruct rename as [old|]; [|apply Hsame].
  destruct (truthy (Some old)); [|apply Hsame].
  destruct submit_button; run_script.
  - destruct (String.eqb new_name ""), (String.eqb new_name old); cbn [negb andb];
      run_script; try apply Hsame;
      try (destruct cancel_button; run_script; apply Hsame).
    destruct (PyDict.contains new_name convs) eqn:Hfresh; run_script.
    + destruct cancel_button; run_script; apply Hsame.
    + destruct (PyDict.get old convs) as [v|] eqn:Hget; run_script; [|apply Hsame].
      specialize (Hrenamed old v share msgs Hget eq_refl).
      destruct (String.eqb cur old); run_script; exact Hrenamed.
  - destruct cancel_button; run_script; apply Hsame.
Qed.

Lemma delete_chat_button_cases a chat_name (P : App -> Prop) :
  (forall msgs, P (mkApp (session a) (world a) msgs)) ->
  (forall k v rest,
     PyDict.remove chat_name (conversations (session a)) = (k, v) :: rest ->
     P (mkApp (mkSession ((k, v) :: rest) k (show_share_dialog_for (session a))
                         (show_rename_dialog_for (session a))
                         (chat_input_key (session a)))
              (saved ((k, v) :: rest) (world a)) (shown a))) ->
  P (snd (delete_chat_button chat_name a)).
Proof.
  intros Hsame Hdeleted.
  destruct (Nat.ltb 1 (PyDict.len (conversations (session a)))) eqn:Hlen.
  - destruct (PyDict.contains chat_name (conversations (session a))) eqn:Hin.
    + apply Nat.ltb_lt in Hlen.
      destruct (delete_chat_button_run a chat_name Hlen Hin) as [k [v [rest [Hr ->]]]].
      apply Hdeleted, Hr.
    + unfold delete_chat_button, del_conversation. run_script. rewrite Hlen.
      run_script. rewrite Hin. destruct a. apply Hsame.
  - unfold delete_chat_button. run_script. rewrite Hlen. apply Hsame.
Qed.

(** X3. Every action of the sidebar and of the rename dialog keeps the
    file equal to the store of the session: if the file holds the store
    before the action, it holds the store after it. *)
Theorem handle_keeps_synced act a :
  synced a -> after synced (handle act a).
Proof.
  intros Hs. destruct act; cbn [handle after].
  - unfold new_chat_button.
    destruct (find_new_chat_name _ _ 1); [|exact I]. reflexivity.
  - exact Hs.
  - exact Hs.
  - exact Hs.
  - pose proof (delete_chat_button_cases a chat_name synced) as H.
    destruct (delete_chat_button chat_name a). apply H.
    + intros msgs. exact Hs.
    + reflexivity.
  - pose proof (rename_dialog_cases a new_name submit_button cancel_button synced) as H.
    destruct (rename_dialog new_name submit_button cancel_button a). apply H.
    + intros share rename msgs. exact Hs.
    + reflexivity.
Qed.

Lemma handle_keeps_synced_witness :
  after synced
    (handle (DeleteChat "A")
       (mkApp (session two_chats)
              (saved (conversations (session two_chats)) (world two_chats)) [])).
Proof.
  apply (handle_keeps_synced (DeleteChat "A")
           (mkApp (session two_chats)
                  (saved (conversations (session two_chats)) (world two_chats)) [])).
  reflexivity.
Defined.

(** X4. Every action that the sidebar offers keeps the active chat among
    the conversations of the store. *)
Theorem handle_keeps_active_chat act a :
  active_chat_exists a -> offered act a ->
  after active_chat_exists (handle act a).
Proof.
  unfold active_chat_exists. intros Hactive Hoffered.
  destruct act; cbn [handle after offered] in *.
  - destruct (find_new_chat_name (S (PyDict.len (conversations (session a))))
                                 (conversations (session a)) 1) as [name|] eqn:Hfind.
    + rewrite (new_chat_button_run _ _ _ Hfind). cbv zeta.
      cbn [after session conversations current_chat].
      rewrite contains_setitem, String.eqb_refl. reflexivity.
    + unfold new_chat_button. rewrite Hfind. exact I.
  - exact Hoffered.
  - exact Hactive.
  - exact Hactive.
  - pose proof (delete_chat_button_cases a chat_name
                  (fun a' => PyDict.contains (current_chat (session a'))
                                             (conversations (session a')) = true)) as H.
    destruct (delete_chat_button chat_name a). apply H.
    + intros msgs. exact Hactive.
    + intros k v rest _. cbn. rewrite String.eqb_refl. reflexivity.
  - pose proof (rename_dialog_cases a new_name submit_button cancel_button
                  (fun a' => PyDict.contains (current_chat (session a'))
                                             (conversations (session a')) = true)) as H.
    destruct (rename_dialog new_name submit_button cancel_button a). apply H.
    + intros share rename msgs. exact Hactive.
    + intros old v share msgs _ _. cbn [session conversations current_chat].
      rewrite contains_setitem.
      destruct (String.eqb_spec (current_chat (session a)) old) as [Hcur|Hcur].
      * rewrite String.eqb_refl. reflexivity.
      * rewrite contains_remove_other by exact Hcur. rewrite Hactive. apply orb_true_r.
Qed.

Lemma handle_keeps_active_chat_witness :
  after active_chat_exists (handle (RenameForm "C" true false) two_chats).
Proof.
  apply (handle_keeps_active_chat (RenameForm "C" true false) two_chats).
  - reflexivity.
  - exact I.
Defined.

Lemma migrate_from_keys clk (d : dict) : forall n,
  PyDict.keys (fst (migrate_from clk n d)) = PyDict.keys d.
Proof.
  induction d as [|[k v] rest IH]; intros n; cbn [migrate_from]; [reflexivity|].
  unfold PyDict.keys in *. destruct (is_list v).
  - specialize (IH (S n)). destruct (migrate_from clk (S n) rest).
    cbn [fst map] in *. rewrite IH. reflexivity.
  - specialize (IH n). destruct (migrate_from clk n rest).
    cbn [fst map] in *. rewrite IH. reflexivity.
Qed.

Lemma migrate_from_no_list_left clk (d : dict) : forall n,
  existsb entry_is_list (fst (migrate_from clk n d)) = false.
Proof.
  induction d as [|[k v] rest IH]; intros n; cbn [migrate_from]; [reflexivity|].
  destruct (is_list v) eqn:Hv.
  - specialize (IH (S n)). destruct (migrate_from clk (S n) rest). cbn in *. exact IH.
  - specialize (IH n). destruct (migrate_from clk n rest). cbn [fst existsb] in *.
    unfold entry_is_list at 1. cbn [snd]. rewrite Hv, IH. reflexivity.
Qed.

Lemma migrate_from_no_list clk (d : dict) : forall n,
  existsb entry_is_list d = false -> migrate_from clk n d = (d, n).
Proof.
  induction d as [|[k v] rest IH]; intros n H; cbn [migrate_from]; [reflexivity|].
  cbn [existsb] in H. apply orb_false_elim in H. destruct H as [Hv Hrest].
  unfold entry_is_list in Hv. cbn [snd] in Hv. rewrite Hv, IH by exact Hrest. reflexivity.
Qed.

(** Loading a non-empty store without legacy entries reads it and
    changes nothing. *)
Lemma load_conversations_current w (d : dict) :
  chats_json w = Some (Encodes (JDict d)) -> PyDict.wf d -> d <> [] ->
  existsb entry_is_list d = false ->
  load_conversations w = (Value d, w).
Proof.
  intros Hfile Hwf Hne Hnolist.
  rewrite (Store.load_conversations_decoded w d Hfile Hwf Hne).
  rewrite migrate_from_no_list, Hnolist by exact Hnolist.
  cbn [fst snd]. rewrite Store.with_ticks_same. reflexivity.
Qed.

(** X5. When the file holds a mapping, one load brings it to a state
    that further loads leave alone: a second load returns the same
    conversations as the first, migrates nothing, reads no clock and
    writes no file. *)
Theorem load_twice w (d : dict) :
  chats_json w = Some (Encodes (JDict d)) -> PyDict.wf d ->
  exists d1 w1,
    load_conversations w = (Value d1, w1) /\
    load_conversations w1 = (Value d1, w1).
Proof.
  intros Hfile Hwf. destruct d as [|e d].
  - eexists _, _. split.
    + unfold load_conversations, os_path_exists, gets, bind at 1. rewrite Hfile.
      unfold bind at 1, try_except, bind at 1, json_load. rewrite Hfile. reflexivity.
    + apply load_conversations_current; try reflexivity; try discriminate.
      repeat constructor. intros [].
  - pose proof (Store.load_conversations_decoded w (e :: d) Hfile Hwf ltac:(discriminate))
      as Hload. cbv zeta in Hload.
    pose proof (migrate_from_keys (clock w) (e :: d) (ticks w)) as Hkeys.
    pose proof (migrate_from_no_list_left (clock w) (e :: d) (ticks w)) as Hleft.
    destruct (existsb entry_is_list (e :: d)) eqn:Hlegacy.
    + eexists _, _. split; [exact Hload|].
      apply load_conversations_current; try reflexivity; try exact Hleft.
      * unfold PyDict.wf. rewrite Hkeys. exact Hwf.
      * intros Hnil. rewrite Hnil in Hkeys. discriminate.
    + rewrite (migrate_from_no_list _ _ _ Hlegacy) in Hload. cbn [fst snd] in Hload.
      rewrite Store.with_ticks_same in Hload.
      eexists _, _. split; [exact Hload|].
      apply load_conversations_current; try assumption. discriminate.
Qed.

Lemma load_twice_witness :
  exists d1 w1,
    load_conversations legacy_world = (Value d1, w1) /\
    load_conversations w1 = (Value d1, w1).
Proof.
  apply (load_twice legacy_world [("Old", JList [JStr "hi"])] eq_refl).
  repeat constructor. intros [].
Defined.

(** X6. When the file is missing, holds a text that [json.load] rejects
    with [JSONDecodeError], or holds JSON that is not an object, the
    default conversation "Chat 1" is returned without being written:
    both files stay as they were and the clock is read once. When the
    file holds the empty object, the default is returned and written to
    the file. When reading the file raises another exception (bytes
    that are not UTF-8, nesting too deep, an integer too long),
    [load_conversations] raises it and leaves the world as it was. *)
Theorem load_default_written_only_for_empty w :
  let chat_1 := [("Chat 1", JDict [("created_at", JStr (clock w (ticks w)));
                                   ("messages", JList [])])] in
  (chats_json w = None \/ chats_json w = Some Unparseable \/
   (exists v, chats_json w = Some (Encodes v) /\ forall d, v <> JDict d) ->
   exists w',
     load_conversations w = (Value chat_1, w') /\
     chats_json w' = chats_json w /\ chats_json_tmp w' = chats_json_tmp w /\
     ticks w' = S (ticks w)) /\
  (chats_json w = Some (Encodes (JDict [])) ->
   exists w',
     load_conversations w = (Value chat_1, w') /\
     chats_json w' = Some (Encodes (JDict chat_1)) /\
     ticks w' = S (ticks w)) /\
  (chats_json w = Some NotUtf8 \/ chats_json w = Some TooDeep \/
   chats_json w = Some HugeInteger ->
   exists e, load_conversations w = (Raised e, w)).
Proof.
  cbv zeta. split; [|split].
  - intros H. exists (with_ticks (S (ticks w)) w).
    split; [|split; [|split]; reflexivity].
    destruct H as [H | [H | [v [H Hv]]]];
      unfold load_conversations, os_path_exists, gets, bind at 1; rewrite H;
      [reflexivity| |];
      unfold bind at 1, try_except, bind at 1, json_load; rewrite H; [reflexivity|].
    destruct v; try reflexivity. exfalso. eapply Hv. reflexivity.
  - intros H.
    exists (saved [("Chat 1", JDict [("created_at", JStr (clock w (ticks w)));
                                     ("messages", JList [])])]
                  (with_ticks (S (ticks w)) w)).
    split; [|split; reflexivity].
    unfold load_conversations, os_path_exists, gets, bind at 1. rewrite H.
    unfold bind at 1, try_except, bind at 1, json_load. rewrite H. reflexivity.
  - intros [H | [H | H]]; eexists;
      unfold load_conversations, os_path_exists, gets, bind at 1; rewrite H;
      unfold bind at 1, try_except, bind at 1, json_load; rewrite H; reflexivity.
Qed.

Lemma load_default_written_only_for_empty_witness :
  exists w',
    load_conversations (mkWorld (Some (Encodes (JList []))) None (fun _ => "t") 0) =
      (Value [("Chat 1", JDict [("created_at", JStr "t"); ("messages", JList [])])], w') /\
    chats_json w' = Some (Encodes (JList [])) /\ chats_json_tmp w' = None /\
    ticks w' = 1.
Proof.
  apply (proj1 (load_default_written_only_for_empty
                  (mkWorld (Some (Encodes (JList []))) None (fun _ => "t") 0))).
  right; right. exists (JList []). split; [reflexivity | discriminate].
Defined.

Lemma find_new_chat_name_least fuel (d : dict) : forall i name,
  find_new_chat_name fuel d i = Some name ->
  exists j, i <= j < i + fuel /\ name = chat_name_of (PyDict.len d + j) /\
            PyDict.contains name d = false /\
            forall i', i <= i' < j ->
                       PyDict.contains (chat_name_of (PyDict.len d + i')) d = true.
Proof.
  induction fuel as [|fuel IH]; intros i name H; cbn [find_new_chat_name] in H;
    [discriminate|].
  destruct (PyDict.contains (chat_name_of (PyDict.len d + i)) d) eqn:E; cbn [negb] in H.
  - apply IH in H. destruct H as [j [Hj [Hname [Hfresh Hbelow]]]].
    exists j. split; [lia|]. split; [exact Hname|]. split; [exact Hfresh|].
    intros i' Hi'. destruct (Nat.eq_dec i' i) as [->|Hne]; [exact E|].
    apply Hbelow. lia.
  - injection H as <-. exists i. split; [lia|]. split; [reflexivity|].
    split; [exact E|]. intros i' Hi'. lia.
Qed.

(** X7. The name given by "New Chat" is "Chat N" for the least [N]
    greater than the number of conversations whose name is not taken,
    and [N] is at most twice that number plus one. Smaller unused
    numbers are not reused. *)
Theorem new_chat_name_least a :
  let n := PyDict.len (conversations (session a)) in
  exists j a',
    handle NewChat a = Some (Rerun, a') /\
    1 <= j <= S n /\
    current_chat (session a') = chat_name_of (n + j) /\
    PyDict.contains (chat_name_of (n + j)) (conversations (session a)) = false /\
    (forall i, 1 <= i < j ->
       PyDict.contains (chat_name_of (n + i)) (conversations (session a)) = true).
Proof.
  cbv zeta. cbn [handle].
  destruct (find_new_chat_name (S (PyDict.len (conversations (session a))))
                               (conversations (session a)) 1) as [name|] eqn:Hfind.
  - destruct (find_new_chat_name_least _ _ _ _ Hfind) as [j [Hj [-> [Hfresh Hbelow]]]].
    rewrite (new_chat_button_run _ _ _ Hfind).
    eexists j, _. split; [reflexivity|]. split; [lia|].
    split; [reflexivity|]. split; assumption.
  - exfalso. revert Hfind. apply find_new_chat_name_total. lia.
Qed.

Lemma new_chat_name_least_witness :
  exists j a',
    handle NewChat two_chats = Some (Rerun, a') /\
    1 <= j <= 3 /\
    current_chat (session a') = chat_name_of (2 + j) /\
    PyDict.contains (chat_name_of (2 + j)) (conversations (session two_chats)) = false /\
    (forall i, 1 <= i < j ->
       PyDict.contains (chat_name_of (2 + i)) (conversations (session two_chats)) = true).
Proof. exact (new_chat_name_least two_chats). Defined.

Example new_chat_skips_unused_number :
  exists a',
    handle NewChat
      (mkApp (mkSession [("Chat 1", conversation "1" (JList []));
                         ("Chat 3", conversation "2" (JList []))] "Chat 1" None None 0)
             (mkWorld None None (fun _ => "3") 0) []) = Some (Rerun, a') /\
    current_chat (session a') = "Chat 4".
Proof. eexists. split; reflexivity. Qed.

End Lifecycle.

(** ** The main chat area *)

Module MainAreaFacts.

Ltac run_desk :=
  unfold in_app, lift, emit, write_file, on_session, in_world;
  unfold sbind, sgets, smodify, sret, sraise, bind, gets, modify, ret, st_rerun;
  cbn [app_state disk screen session world shown conversations current_chat
       show_share_dialog_for show_rename_dialog_for chat_input_key fst snd
       set_conversations desk_conversations desk_current_chat].

Lemma get_setitem_same k v (d : dict) : PyDict.get k (PyDict.setitem k v d) = Some v.
Proof.
  induction d as [|[k0 v0] d IH]; cbn [PyDict.setitem PyDict.get].
  - rewrite String.eqb_refl. reflexivity.
  - destruct (String.eqb k k0) eqn:E; cbn [PyDict.get]; rewrite E; [reflexivity | exact IH].
Qed.

Lemma get_setitem_other k k' v (d : dict) :
  k' <> k -> PyDict.get k' (PyDict.setitem k v d) = PyDict.get k' d.
Proof.
  intros Hne. induction d as [|[k0 v0] d IH]; cbn [PyDict.setitem PyDict.get].
  - destruct (String.eqb_spec k' k); [contradiction | reflexivity].
  - destruct (String.eqb_spec k k0) as [->|Hk]; cbn [PyDict.get].
    + destruct (String.eqb_spec k' k0); [contradiction | reflexivity].
    + rewrite IH. reflexivity.
Qed.

Lemma setitem_setitem k v1 v2 (d : dict) :
  PyDict.setitem k v2 (PyDict.setitem k v1 d) = PyDict.setitem k v2 d.
Proof.
  induction d as [|[k0 v0] d IH]; cbn [PyDict.setitem].
  - rewrite String.eqb_refl. reflexivity.
  - destruct (String.eqb k k0) eqn:E; cbn [PyDict.setitem]; rewrite E;
      [reflexivity | rewrite IH; reflexivity].
Qed.

Lemma setitem_get_same k v (d : dict) :
  PyDict.get k d = Some v -> PyDict.setitem k v d = d.
Proof.
  induction d as [|[k0 v0] d IH]; cbn [PyDict.setitem PyDict.get]; [discriminate|].
  destruct (String.eqb_spec k k0) as [->|Hk].
  - intros H. injection H as ->. reflexivity.
  - intros H. rewrite IH by exact H. reflexivity.
Qed.

Lemma keys_setitem_present k v v0 (d : dict) :
  PyDict.get k d = Some v0 -> PyDict.keys (PyDict.setitem k v d) = PyDict.keys d.
Proof.
  unfold PyDict.keys.
  induction d as [|[k0 v1] d IH]; cbn [PyDict.setitem PyDict.get map]; [discriminate|].
  destruct (String.eqb k k0); [reflexivity|].
  intros H. cbn [map fst]. rewrite IH by exact H. reflexivity.
Qed.

Lemma with_messages_same items name record (convs : dict) :
  PyDict.get name convs = Some (JDict record) ->
  PyDict.get "messages" record = Some (JList items) ->
  with_messages items name record convs = convs.
Proof.
  intros Hget Hmsgs. unfold with_messages.
  rewrite (setitem_get_same "messages" _ record Hmsgs).
  apply setitem_get_same, Hget.
Qed.

(** One [append]: the active chat's list grows by the message. *)
Lemma append_message_run message items name record (convs0 : dict) d :
  desk_current_chat d = name ->
  desk_conversations d = with_messages items name record convs0 ->
  append_message message d =
  (Done tt, desk_with_conversations (with_messages (items ++ [message]) name record convs0) d).
Proof.
  intros Hname Hconvs. destruct d as [[[convs cur share rename key] w msgs] fs els].
  cbn [desk_current_chat desk_conversations app_state session conversations current_chat]
    in Hname, Hconvs. subst cur convs.
  unfold append_message. run_desk. unfold with_messages at 1.
  rewrite get_setitem_same. unfold subscript. rewrite get_setitem_same. run_desk.
  unfold desk_with_conversations, with_messages. cbn [app_state session world shown disk screen set_conversations current_chat show_share_dialog_for show_rename_dialog_for chat_input_key].
  rewrite !setitem_setitem. reflexivity.
Qed.

Lemma desk_with_conversations_twice c1 c2 d :
  desk_with_conversations c2 (desk_with_conversations c1 d) = desk_with_conversations c2 d.
Proof. reflexivity. Qed.

Lemma call_gemini_reply API_KEY gemini prompt d :
  call_gemini API_KEY gemini prompt d = (Done (gemini_reply API_KEY gemini prompt), d).
Proof.
  unfold call_gemini, gemini_reply.
  destruct (Llm.get_gemini_response API_KEY gemini prompt) as [s| |e] eqn:H;
    [reflexivity|reflexivity|].
  exfalso. unfold Llm.get_gemini_response in H.
  destruct API_KEY as [k|]; [destruct (String.eqb k "")|]; try discriminate.
  destruct (gemini k prompt); try discriminate.
  destruct (Llm.str_in "API_KEY_INVALID" str_e); [discriminate|].
  destruct (Llm.str_in "PERMISSION_DENIED" str_e); discriminate.
Qed.

(** The loop over the uploads, on a desk whose active chat is a record
    with a list of messages. *)
Lemma upload_loop_run ctx name record (convs0 : dict) uploaded_files :
  forall items d,
    desk_current_chat d = name ->
    desk_conversations d = with_messages items name record convs0 ->
    upload_loop (path_join UPLOAD_DIR (get_session_id ctx)) uploaded_files d =
    (Done tt,
     mkDesk (app_state
               (desk_with_conversations
                  (with_messages (items ++ upload_messages ctx uploaded_files)
                                 name record convs0) d))
            (write_uploads ctx uploaded_files (disk d))
            (screen d)).
Proof.
  induction uploaded_files as [|file rest IH]; intros items d Hname Hconvs.
  - cbn [upload_loop upload_messages flat_map write_uploads fold_left].
    rewrite app_nil_r. unfold desk_with_conversations. rewrite <- Hconvs.
    destruct d as [[[convs cur share rename key] w msgs] fs els]. reflexivity.
  - cbn [upload_loop]. unfold sbind at 1. unfold write_file at 1, smodify.
    unfold sbind at 1.
    erewrite append_message_run; [|exact Hname|exact Hconvs].
    unfold sbind at 1.
    erewrite append_message_run; [|exact Hname|reflexivity].
    rewrite IH with (items := (items ++
        [upload_message (upload_type file)
           (path_join (path_join UPLOAD_DIR (get_session_id ctx)) (file_name file))
           (file_name file)]) ++
        [text_message "assistant" (upload_reply (upload_type file) (file_name file))]);
      [|exact Hname|reflexivity].
    cbn [upload_messages flat_map write_uploads fold_left app].
    rewrite <- !app_assoc. reflexivity.
Qed.

(** The run of the input code when there is something to handle and the
    active chat is a record with a list of messages. *)
Lemma handle_input_run API_KEY gemini ctx prompt uploaded_files name record items d :
  desk_current_chat d = name ->
  PyDict.get name (desk_conversations d) = Some (JDict record) ->
  PyDict.get "messages" record = Some (JList items) ->
  truthy prompt || nonempty_uploads uploaded_files = true ->
  handle_input API_KEY gemini ctx prompt uploaded_files d =
  (Rerunning,
   let final := with_messages
                  (items ++ prompt_messages API_KEY gemini prompt ++
                   upload_messages ctx uploaded_files)
                  name record (desk_conversations d) in
   mkDesk (mkApp (set_conversations final (session (app_state d)))
                 (saved final (world (app_state d)))
                 (shown (app_state d)))
          (write_uploads ctx uploaded_files (disk d))
          (screen d)).
Proof.
  intros Hname Hget Hmsgs Hsome.
  pose proof (with_messages_same items name record _ Hget Hmsgs) as Hconvs.
  symmetry in Hconvs.
  unfold handle_input. fold (nonempty_uploads uploaded_files). rewrite Hsome.
  unfold sbind at 1.
  assert (Hprompt :
    match prompt with
    | Some text =>
        if truthy prompt
        then sbind (append_message (text_message "user" text))
               (fun _ => sbind (call_gemini API_KEY gemini text)
                  (fun response => append_message (reply_message response)))
        else sret tt
    | None => sret tt
    end d =
    (Done tt, desk_with_conversations
                (with_messages (items ++ prompt_messages API_KEY gemini prompt)
                               name record (desk_conversations d)) d)).
  { unfold prompt_messages. destruct prompt as [text|].
    - destruct (truthy (Some text)).
      + unfold sbind at 1.
        erewrite append_message_run; [|exact Hname|exact Hconvs].
        unfold sbind at 1. rewrite call_gemini_reply.
        erewrite append_message_run; [|exact Hname|reflexivity].
        rewrite <- app_assoc. reflexivity.
      + rewrite app_nil_r, <- Hconvs.
        destruct d as [[[convs cur share rename key] w msgs] fs els]. reflexivity.
    - rewrite app_nil_r, <- Hconvs.
      destruct d as [[[convs cur share rename key] w msgs] fs els]. reflexivity. }
  rewrite Hprompt. clear Hprompt.
  unfold sbind at 1.
  erewrite upload_loop_run; [|exact Hname|reflexivity].
  run_desk. rewrite <- app_assoc. reflexivity.
Qed.

Lemma length_upload_messages ctx uploaded_files :
  length (upload_messages ctx uploaded_files) = 2 * length uploaded_files.
Proof.
  induction uploaded_files as [|file rest IH]; [reflexivity|].
  change (upload_messages ctx (file :: rest))
    with (upload_message (upload_type file) (upload_path ctx file) (file_name file)
          :: text_message "assistant" (upload_reply (upload_type file) (file_name file))
          :: upload_messages ctx rest).
  cbn [length]. rewrite IH. lia.
Qed.

(** X8. When the active chat is a record with a list of messages and
    there is a prompt or an upload, the input code ends with a rerun and
    the list has grown, in this order, by the user's text and the
    assistant's reply (if there is a prompt) and then, for each uploaded
    file in turn, by the user's file message and the acknowledgement:
    two messages per prompt and two per file. The record's other fields,
    the other chats, the order of the chats and the active chat are
    unchanged, nothing is drawn, and the file holds the new store. *)
Theorem input_appends_messages
    API_KEY gemini ctx prompt uploaded_files name record items d :
  desk_current_chat d = name ->
  PyDict.get name (desk_conversations d) = Some (JDict record) ->
  PyDict.get "messages" record = Some (JList items) ->
  truthy prompt || nonempty_uploads uploaded_files = true ->
  let added := prompt_messages API_KEY gemini prompt ++
               upload_messages ctx uploaded_files in
  exists d',
    handle_input API_KEY gemini ctx prompt uploaded_files d = (Rerunning, d') /\
    PyDict.get name (desk_conversations d') =
      Some (JDict (PyDict.setitem "messages" (JList (items ++ added)) record)) /\
    length added =
      (if truthy prompt then 2 else 0) + 2 * length uploaded_files /\
    (forall k, k <> name ->
       PyDict.get k (desk_conversations d') = PyDict.get k (desk_conversations d)) /\
    same_chats d d' /\
    synced (app_state d') /\
    screen d' = screen d.
Proof.
  intros Hname Hget Hmsgs Hsome added.
  eexists. split; [apply handle_input_run; eassumption|].
  cbv zeta. unfold same_chats.
  cbn [desk_conversations desk_current_chat app_state session conversations
       current_chat set_conversations screen].
  fold (desk_conversations d). fold added. unfold with_messages.
  split; [apply get_setitem_same|].
  split.
  { unfold added. rewrite length_app, length_upload_messages. f_equal.
    unfold prompt_messages. destruct prompt as [text|]; [|reflexivity].
    destruct (truthy (Some text)); reflexivity. }
  split; [intros k Hk; apply get_setitem_other, Hk|].
  split; [split; [eapply keys_setitem_present; exact Hget | reflexivity]|].
  split; reflexivity.
Qed.

Lemma input_appends_messages_witness :
  exists d',
    handle_input (Some "key") (fun _ _ => Llm.Response "hello") None
                 (Some "how?") [notes_txt] one_message_desk = (Rerunning, d') /\
    PyDict.get "A" (desk_conversations d') =
      Some (conversation "1"
              (JList [text_message "user" "hi";
                      text_message "user" "how?";
                      text_message "assistant" "hello";
                      upload_message "file" "uploads/non_streamlit_session/notes.txt"
                                     "notes.txt";
                      text_message "assistant" "Received your file: **notes.txt**"])).
Proof.
  destruct (input_appends_messages (Some "key") (fun _ _ => Llm.Response "hello") None
              (Some "how?") [notes_txt] "A"
              [("created_at", JStr "1"); ("messages", JList [text_message "user" "hi"])]
              [text_message "user" "hi"] one_message_desk
              eq_refl eq_refl eq_refl eq_refl)
    as [d' [Hrun [Hget _]]].
  exists d'. split; [exact Hrun | exact Hget].
Defined.

Lemma file_read_write path q data (fs : files) :
  file_read path (file_write q data fs) =
  if String.eqb path q then Some data else file_read path fs.
Proof.
  induction fs as [|[p0 old] fs IH]; cbn [file_write file_read].
  - destruct (String.eqb path q); reflexivity.
  - destruct (String.eqb_spec q p0) as [->|Hq]; cbn [file_read].
    + destruct (String.eqb path p0); reflexivity.
    + rewrite IH. destruct (String.eqb_spec path p0) as [->|Hp]; [|reflexivity].
      destruct (String.eqb_spec p0 q); [congruence | reflexivity].
Qed.

Lemma file_read_write_uploads ctx path uploaded_files : forall fs,
  file_read path (write_uploads ctx uploaded_files fs) =
  match last_upload ctx path uploaded_files with
  | Some data => Some data
  | None => file_read path fs
  end.
Proof.
  unfold write_uploads.
  induction uploaded_files as [|file rest IH]; intros fs;
    cbn [fold_left last_upload]; [reflexivity|].
  rewrite IH. destruct (last_upload ctx path rest); [reflexivity|].
  rewrite file_read_write. destruct (String.eqb path (upload_path ctx file)); reflexivity.
Qed.

(** X9. Under the same conditions, after the input code every path
    holds the bytes of the last uploaded file that was written to it (a
    later upload of the same name overwrites an earlier one), and every
    other path holds what it held. *)
Theorem uploads_written
    API_KEY gemini ctx prompt uploaded_files name record items d path :
  desk_current_chat d = name ->
  PyDict.get name (desk_conversations d) = Some (JDict record) ->
  PyDict.get "messages" record = Some (JList items) ->
  truthy prompt || nonempty_uploads uploaded_files = true ->
  file_read path (disk (snd (handle_input API_KEY gemini ctx prompt uploaded_files d))) =
  match last_upload ctx path uploaded_files with
  | Some data => Some data
  | None => file_read path (disk d)
  end.
Proof.
  intros Hname Hget Hmsgs Hsome.
  rewrite (handle_input_run API_KEY gemini ctx prompt uploaded_files name record items d
             Hname Hget Hmsgs Hsome).
  cbv zeta. cbn [snd disk]. apply file_read_write_uploads.
Qed.

Lemma uploads_written_witness :
  file_read "uploads/non_streamlit_session/notes.txt"
    (disk (snd (handle_input None (fun _ _ => Llm.Response "") None None
                  [notes_txt; mkUploadedFile "notes.txt" None "newer bytes"]
                  one_message_desk))) = Some "newer bytes".
Proof.
  rewrite (uploads_written None (fun _ _ => Llm.Response "") None None
             [notes_txt; mkUploadedFile "notes.txt" None "newer bytes"] "A"
             [("created_at", JStr "1"); ("messages", JList [text_message "user" "hi"])]
             [text_message "user" "hi"] one_message_desk
             "uploads/non_streamlit_session/notes.txt" eq_refl eq_refl eq_refl eq_refl).
  reflexivity.
Defined.

Lemma same_chats_refl d : same_chats d d.
Proof. split; reflexivity. Qed.

Lemma same_chats_trans d1 d2 d3 : same_chats d1 d2 -> same_chats d2 d3 -> same_chats d1 d3.
Proof. unfold same_chats. intros [H1 H2] [H3 H4]. split; congruence. Qed.

Lemma sbind_same_chats {A B} (m : Script Desk A) (k : A -> Script Desk B) d :
  (forall s, same_chats s (snd (m s))) ->
  (forall x s, same_chats s (snd (k x s))) ->
  same_chats d (snd (sbind m k d)).
Proof.
  intros Hm Hk. unfold sbind. specialize (Hm d).
  destruct (m d) as [[x|e|] s']; cbn [snd] in *; try exact Hm.
  eapply same_chats_trans; [exact Hm | apply Hk].
Qed.

Lemma append_message_same_chats message d :
  same_chats d (snd (append_message message d)).
Proof.
  destruct d as [[[convs cur share rename key] w msgs] fs els].
  unfold append_message. run_desk.
  destruct (PyDict.get cur convs) as [data|] eqn:Hget; [|apply same_chats_refl].
  unfold subscript. destruct data as [| | | | |record]; try apply same_chats_refl.
  destruct (PyDict.get "messages" record) as [messages|]; [|apply same_chats_refl].
  run_desk. destruct messages; try apply same_chats_refl.
  run_desk. split; [|reflexivity].
  cbn [desk_conversations app_state session conversations].
  eapply keys_setitem_present. exact Hget.
Qed.

Lemma upload_loop_same_chats dir uploaded_files : forall d,
  same_chats d (snd (upload_loop dir uploaded_files d)).
Proof.
  induction uploaded_files as [|file rest IH]; intros d; cbn [upload_loop].
  - apply same_chats_refl.
  - apply sbind_same_chats; [intros s; split; reflexivity|]. intros _ s.
    apply sbind_same_chats; [apply append_message_same_chats|]. intros _ s1.
    apply sbind_same_chats; [apply append_message_same_chats|]. intros _ s2.
    apply IH.
Qed.

(** X10. However it ends, and whatever the store holds, the input code
    never adds, removes, renames or reorders chats and never changes
    which chat is active. *)
Theorem input_keeps_chats API_KEY gemini ctx prompt uploaded_files d :
  same_chats d (snd (handle_input API_KEY gemini ctx prompt uploaded_files d)).
Proof.
  unfold handle_input.
  destruct (truthy prompt || match uploaded_files with [] => false | _ => true end);
    [|apply same_chats_refl].
  apply sbind_same_chats.
  - intros s. destruct prompt as [text|]; [|apply same_chats_refl].
    destruct (truthy (Some text)); [|apply same_chats_refl].
    apply sbind_same_chats; [apply append_message_same_chats|]. intros _ s1.
    apply sbind_same_chats; [|intros response s2; apply append_message_same_chats].
    intros s2. unfold call_gemini.
    destruct (Llm.get_gemini_response API_KEY gemini text); apply same_chats_refl.
  - intros _ s. apply sbind_same_chats; [apply upload_loop_same_chats|]. intros _ s1.
    apply sbind_same_chats; [intros s2; apply same_chats_refl|]. intros convs s2.
    apply sbind_same_chats; intros; split; reflexivity.
Qed.

Lemma draw_nil d : draw [] d = d.
Proof. destruct d. unfold draw. cbn. rewrite app_nil_r. reflexivity. Qed.

Lemma draw_draw l1 l2 d : draw l2 (draw l1 d) = draw (l1 ++ l2) d.
Proof. unfold draw. cbn. rewrite app_assoc. reflexivity. Qed.

(** X11. A message that is a JSON object without ["role"] is shown as
    the error "Malformed message found in conversation history." and the
    loop goes on; so is, after its chat bubble is opened, a text message
    whose role is a string and that has no ["content"]. Nothing else
    changes. A role that is not a string is refused by Streamlit: the
    display stops there with Streamlit's exception and draws nothing for
    the message. *)
Theorem malformed_message_is_reported lib fields d :
  (PyDict.get "role" fields = None ->
   render_message lib (JDict fields) d =
   (Done tt,
    mkDesk (app_state d) (disk d)
           (screen d ++ [StError "Malformed message found in conversation history."]))) /\
  (forall role,
     PyDict.get "role" fields = Some (JStr role) ->
     equals_str (get_default "type" (JStr "text") fields) "text" = true ->
     PyDict.get "content" fields = None ->
     render_message lib (JDict fields) d =
     (Done tt,
      mkDesk (app_state d) (disk d)
             (screen d ++ [ChatMessage (JStr role);
                           StError "Malformed message found in conversation history."]))) /\
  (forall role,
     PyDict.get "role" fields = Some role ->
     (forall text, role <> JStr text) ->
     render_message lib (JDict fields) d = (Failed StreamlitError, d)).
Proof.
  split; [|split].
  - intros Hrole. unfold render_message, except_KeyError, subscript.
    unfold sbind at 1. rewrite Hrole. reflexivity.
  - intros role Hrole Htype Hcontent.
    unfold render_message, except_KeyError, subscript.
    unfold sbind at 1. rewrite Hrole. unfold sret at 1.
    unfold st_chat_message.
    unfold sbind at 1, emit at 1, smodify at 1. rewrite Htype.
    unfold sbind at 1. rewrite Hcontent. unfold sraise, emit, smodify.
    cbn [app_state disk screen]. rewrite <- app_assoc. reflexivity.
  - intros role Hrole Hnot.
    unfold render_message, except_KeyError, subscript.
    unfold sbind at 1. rewrite Hrole. unfold sret at 1.
    unfold st_chat_message, sbind, sraise.
    destruct role; try reflexivity. exfalso. eapply Hnot. reflexivity.
Qed.

Lemma malformed_message_is_reported_witness :
  render_message plain_library (JDict [("content", JStr "hi")]) one_message_desk =
  (Done tt,
   mkDesk (app_state one_message_desk) (disk one_message_desk)
          [StError "Malformed message found in conversation history."]) /\
  render_message plain_library (JDict [("role", JStr "user")]) one_message_desk =
  (Done tt,
   mkDesk (app_state one_message_desk) (disk one_message_desk)
          [ChatMessage (JStr "user");
           StError "Malformed message found in conversation history."]) /\
  render_message plain_library (JDict [("role", JNull); ("content", JStr "hi")])
                 one_message_desk =
  (Failed StreamlitError, one_message_desk).
Proof.
  split; [|split].
  - apply (proj1 (malformed_message_is_reported plain_library [("content", JStr "hi")]
                    one_message_desk)).
    reflexivity.
  - apply (proj1 (proj2 (malformed_message_is_reported plain_library
                           [("role", JStr "user")] one_message_desk)) "user");
      reflexivity.
  - apply (proj2 (proj2 (malformed_message_is_reported plain_library
                           [("role", JNull); ("content", JStr "hi")]
                           one_message_desk)) JNull).
    + reflexivity.
    + discriminate.
Defined.

Lemma render_messages_app lib l1 l2 d :
  render_messages lib (l1 ++ l2) d =
  sbind (render_messages lib l1) (fun _ => render_messages lib l2) d.
Proof.
  revert d. induction l1 as [|m l1 IH]; intros d; cbn [app render_messages].
  - reflexivity.
  - unfold sbind. destruct (render_message lib m d) as [[[]|e|] d1];
      [|reflexivity|reflexivity].
    rewrite IH. reflexivity.
Qed.

Lemma render_non_object lib message d :
  (forall fields, message <> JDict fields) ->
  render_message lib message d = (Failed TypeError, d).
Proof.
  intros Hm. destruct message; try reflexivity. exfalso. eapply Hm. reflexivity.
Qed.

(** X12. A message that is not a JSON object (a string, a number, a
    list, null) stops the display with an uncaught [TypeError]: the
    messages before it are drawn, the message and all that follow are
    not. *)
Theorem non_object_message_stops_display lib before message rest d d1 :
  (forall fields, message <> JDict fields) ->
  render_messages lib before d = (Done tt, d1) ->
  render_messages lib (before ++ message :: rest) d = (Failed TypeError, d1).
Proof.
  intros Hm Hbefore. rewrite render_messages_app. unfold sbind at 1. rewrite Hbefore.
  cbn [render_messages]. unfold sbind at 1.
  rewrite (render_non_object lib message d1 Hm). reflexivity.
Qed.

Lemma non_object_message_stops_display_witness :
  render_messages plain_library
    ([text_message "user" "hi"] ++ JStr "oops" :: [text_message "user" "later"])
    one_message_desk =
  (Failed TypeError, draw [ChatMessage (JStr "user"); Markdown (JStr "hi")] one_message_desk).
Proof.
  apply (non_object_message_stops_display plain_library [text_message "user" "hi"]
           (JStr "oops") [text_message "user" "later"] one_message_desk).
  - discriminate.
  - reflexivity.
Defined.

Lemma only_draws_refl d : only_draws d d.
Proof.
  split; [reflexivity|]. split; [reflexivity|]. exists []. rewrite app_nil_r. reflexivity.
Qed.

Lemma only_draws_trans d1 d2 d3 : only_draws d1 d2 -> only_draws d2 d3 -> only_draws d1 d3.
Proof.
  intros [Ha [Hd [l1 Hs]]] [Ha' [Hd' [l2 Hs']]].
  split; [congruence|]. split; [congruence|].
  exists (l1 ++ l2). rewrite Hs', Hs, app_assoc. reflexivity.
Qed.

Lemma sbind_only_draws {A B} (m : Script Desk A) (k : A -> Script Desk B) d :
  (forall s, only_draws s (snd (m s))) ->
  (forall x s, only_draws s (snd (k x s))) ->
  only_draws d (snd (sbind m k d)).
Proof.
  intros Hm Hk. unfold sbind. specialize (Hm d).
  destruct (m d) as [[x|e|] s']; cbn [snd] in *; try exact Hm.
  eapply only_draws_trans; [exact Hm | apply Hk].
Qed.

Lemma emit_only_draws e d : only_draws d (snd (emit e d)).
Proof. split; [reflexivity|]. split; [reflexivity|]. exists [e]. reflexivity. Qed.

Lemma subscript_only_draws v k (d : Desk) : only_draws d (snd (subscript v k d)).
Proof.
  destruct v; try apply only_draws_refl. cbn [subscript].
  destruct (PyDict.get k entries); apply only_draws_refl.
Qed.

Lemma basename_of_only_draws v (d : Desk) : only_draws d (snd (basename_of v d)).
Proof. destruct v; apply only_draws_refl. Qed.

Lemma st_chat_message_only_draws role d : only_draws d (snd (st_chat_message role d)).
Proof. destruct role; first [apply emit_only_draws | apply only_draws_refl]. Qed.

Lemma st_image_only_draws lib source caption d :
  only_draws d (snd (st_image lib source caption d)).
Proof.
  unfold st_image, sbind, sgets.
  destruct (media_found lib "image" source (disk d));
    [apply emit_only_draws | apply only_draws_refl].
Qed.

Lemma st_audio_only_draws lib source d : only_draws d (snd (st_audio lib source d)).
Proof.
  unfold st_audio, sbind, sgets.
  destruct (media_found lib "audio" source (disk d));
    [apply emit_only_draws | apply only_draws_refl].
Qed.

Lemma st_download_button_only_draws label data name key d :
  only_draws d (snd (st_download_button label data name key d)).
Proof.
  unfold st_download_button, sbind, sgets.
  destruct (key_used key (screen d)); [apply only_draws_refl | apply emit_only_draws].
Qed.

Ltac draws :=
  first
    [ apply only_draws_refl
    | apply emit_only_draws
    | apply st_chat_message_only_draws
    | apply st_image_only_draws
    | apply st_audio_only_draws
    | apply st_download_button_only_draws
    | apply subscript_only_draws
    | apply basename_of_only_draws
    | apply sbind_only_draws; intros; draws
    | match goal with
      | |- context [if ?b then _ else _] => destruct b; draws
      | |- context [match ?x with _ => _ end] => destruct x; draws
      end ].

Lemma render_message_only_draws lib message d :
  only_draws d (snd (render_message lib message d)).
Proof.
  unfold render_message, except_KeyError.
  match goal with
  | |- context [sbind ?m ?k d] =>
      assert (Hbody : only_draws d (snd (sbind m k d)));
      [|destruct (sbind m k d) as [[[]|e|] d1]; cbn [snd] in *; try exact Hbody]
  end.
  - draws.
  - destruct e as [e| | |]; try exact Hbody.
    destruct e; try exact Hbody.
    eapply only_draws_trans; [exact Hbody | apply emit_only_draws].
Qed.

Lemma render_messages_draws lib messages : forall d,
  only_draws d (snd (render_messages lib messages d)).
Proof.
  induction messages as [|message rest IH]; intros d; cbn [render_messages].
  - apply only_draws_refl.
  - apply sbind_only_draws; [intros s; apply render_message_only_draws|].
    intros _ s. apply IH.
Qed.

(** X13. Displaying the messages changes neither the session state, nor
    the chat history, nor any file, whatever the messages are and
    however the display ends: it only adds calls to the screen. *)
Theorem render_messages_only_draws lib messages d :
  let d' := snd (render_messages lib messages d) in
  app_state d' = app_state d /\
  disk d' = disk d /\
  exists drawn, screen d' = screen d ++ drawn.
Proof.
  intros d'. destruct (render_messages_draws lib messages d) as [Happ [Hdisk Hscreen]].
  split; [exact Happ|]. split; [exact Hdisk | exact Hscreen].
Qed.

Lemma path_join_nonempty a b : a <> "" -> path_join a b <> "".
Proof.
  intros Ha. unfold path_join.
  destruct b as [|c b]; cbn [String.prefix].
  - destruct (String.eqb a "" || ends_with_slash a); destruct a; try discriminate;
      contradiction.
  - destruct (Ascii.ascii_dec "/" c) as [_|_]; [destruct b; discriminate|].
    destruct (String.eqb a "" || ends_with_slash a); destruct a; try discriminate;
      contradiction.
Qed.

Lemma upload_path_nonempty ctx file : upload_path ctx file <> "".
Proof. apply path_join_nonempty, path_join_nonempty. discriminate. Qed.

Lemma truth_path lib path : path <> "" -> truth lib (JStr path) = true.
Proof.
  intros H. cbn [truth]. destruct (String.eqb_spec path ""); [contradiction | reflexivity].
Qed.

Lemma key_used_spec key drawn :
  key_used key drawn = true <-> download_key_drawn key drawn.
Proof.
  unfold key_used, download_key_drawn. rewrite existsb_exists. split.
  - intros [e [Hin He]]. destruct e; try discriminate.
    apply String.eqb_eq in He. subst. eauto.
  - intros [label [data [name Hin]]]. eexists. split; [exact Hin|].
    apply String.eqb_refl.
Qed.

Lemma key_unused key drawn : ~ download_key_drawn key drawn -> key_used key drawn = false.
Proof.
  intros H. destruct (key_used key drawn) eqn:E; [|reflexivity].
  exfalso. apply H, key_used_spec, E.
Qed.

Lemma key_used_after_bubble key drawn role :
  key_used key (drawn ++ [ChatMessage role]) = key_used key drawn.
Proof. unfold key_used. rewrite existsb_app. cbn [existsb]. apply orb_false_r. Qed.

(** The display of a "file" message written by the upload code. *)
Lemma render_file_message lib path name d :
  path <> "" ->
  render_message lib (upload_message "file" path name) d =
  match file_read path (disk d) with
  | Some data =>
      if key_used ("download_" ++ path) (screen d) then
        (Failed StreamlitError, draw [ChatMessage (JStr "user")] d)
      else
        (Done tt,
         draw [ChatMessage (JStr "user");
               DownloadButton ("📎 Download " ++ basename name) data (basename name)
                              ("download_" ++ path)] d)
  | None =>
      (Done tt,
       draw [ChatMessage (JStr "user"); StError ("File not found: " ++ basename name)] d)
  end.
Proof.
  intros Hpath. unfold render_message, except_KeyError, upload_message.
  unfold sbind at 1. cbn [subscript PyDict.get String.eqb Ascii.eqb Bool.eqb].
  unfold sret at 1. unfold st_chat_message.
  unfold sbind at 1, emit at 1, smodify at 1.
  cbn [get_default PyDict.get String.eqb Ascii.eqb Bool.eqb equals_str andb].
  rewrite (truth_path lib path Hpath).
  unfold basename_of, st_download_button, sbind, sret, sgets. cbn [disk screen].
  destruct (file_read path (disk d)).
  - cbn [screen]. rewrite key_used_after_bubble.
    destruct (key_used ("download_" ++ path) (screen d)); [reflexivity|].
    unfold emit, smodify, draw. cbn [app_state disk screen].
    rewrite <- app_assoc. reflexivity.
  - unfold emit, smodify, draw. cbn [app_state disk screen].
    rewrite <- app_assoc. reflexivity.
Qed.

(** X14. An uploaded file that is neither an image nor a sound can be
    downloaded again: once the input code has run, displaying the
    message it stored for the file draws a download button that carries
    the file's bytes and the base name of the file, provided no later
    upload of the same run was written to the same path, and no download
    button with the key of the file's path is on the screen yet (Streamlit
    refuses a second one). *)
Theorem uploaded_file_is_downloadable
    lib API_KEY gemini ctx prompt uploaded_files name record items d file :
  desk_current_chat d = name ->
  PyDict.get name (desk_conversations d) = Some (JDict record) ->
  PyDict.get "messages" record = Some (JList items) ->
  In file uploaded_files ->
  upload_type file = "file" ->
  last_upload ctx (upload_path ctx file) uploaded_files = Some (file_buffer file) ->
  ~ download_key_drawn ("download_" ++ upload_path ctx file) (screen d) ->
  let d' := snd (handle_input API_KEY gemini ctx prompt uploaded_files d) in
  In (upload_message "file" (upload_path ctx file) (file_name file))
     (upload_messages ctx uploaded_files) /\
  render_message lib
    (upload_message "file" (upload_path ctx file) (file_name file)) d' =
  (Done tt,
   draw [ChatMessage (JStr "user");
         DownloadButton ("📎 Download " ++ basename (file_name file)) (file_buffer file)
                        (basename (file_name file))
                        ("download_" ++ upload_path ctx file)] d').
Proof.
  intros Hname Hget Hmsgs Hin Htype Hlast Hkey d'.
  split.
  - unfold upload_messages. apply in_flat_map. exists file. split; [exact Hin|].
    rewrite Htype. left. reflexivity.
  - rewrite render_file_message by apply upload_path_nonempty.
    assert (Hsome : truthy prompt || nonempty_uploads uploaded_files = true).
    { destruct uploaded_files; [destruct Hin|]. apply orb_true_r. }
    unfold d'.
    rewrite (handle_input_run API_KEY gemini ctx prompt uploaded_files name record items d
               Hname Hget Hmsgs Hsome).
    cbv zeta. cbn [snd disk screen]. rewrite file_read_write_uploads, Hlast.
    rewrite (key_unused _ _ Hkey). reflexivity.
Qed.

Lemma uploaded_file_is_downloadable_witness :
  let d' := snd (handle_input None (fun _ _ => Llm.Response "") None None [notes_txt]
                   one_message_desk) in
  render_message plain_library
    (upload_message "file" "uploads/non_streamlit_session/notes.txt" "notes.txt") d' =
  (Done tt,
   draw [ChatMessage (JStr "user");
         DownloadButton "📎 Download notes.txt" "some bytes" "notes.txt"
                        "download_uploads/non_streamlit_session/notes.txt"] d').
Proof.
  exact (proj2 (uploaded_file_is_downloadable plain_library None
                  (fun _ _ => Llm.Response "") None None [notes_txt] "A"
                  [("created_at", JStr "1"); ("messages", JList [text_message "user" "hi"])]
                  [text_message "user" "hi"] one_message_desk notes_txt
                  eq_refl eq_refl eq_refl (or_introl eq_refl) eq_refl eq_refl
                  (fun H => match H with
                            | ex_intro _ _ (ex_intro _ _ (ex_intro _ _ Hin)) => Hin
                            end))).
Defined.




Lemma upload_type_cases file :
  upload_type file = "image" \/ upload_type file = "audio" \/ upload_type file = "file".
Proof.
  unfold upload_type.
  destruct (truthy (file_type file) && _); [auto|].
  destruct (truthy (file_type file) && _); auto.
Qed.



(** X16. When the conversation of the active chat is an empty object,
    the main area draws its title and nothing else: no message is
    displayed and the input is not drawn, so the run has neither a prompt
    nor an upload, and nothing else changes. *)
Theorem main_area_without_conversation lib API_KEY gemini ctx d :
  PyDict.get (desk_current_chat d) (desk_conversations d) = Some (JDict []) ->
  main_area lib API_KEY gemini ctx None [] d =
  (Done tt,
   mkDesk (app_state d) (disk d) (screen d ++ [Title ("🤖 " ++ desk_current_chat d)])).
Proof.
  intros H. destruct d as [[[convs cur share rename key] w msgs] fs els].
  cbn [desk_current_chat desk_conversations app_state session conversations current_chat]
    in H.
  unfold main_area. run_desk. rewrite H. reflexivity.
Qed.

Lemma main_area_without_conversation_witness :
  main_area plain_library None (fun _ _ => Llm.Response "") None None []
    (mkDesk (mkApp (mkSession [("A", JDict [])] "A" None None 0)
                   (mkWorld None None (fun _ => "1") 0) []) [] []) =
  (Done tt,
   mkDesk (mkApp (mkSession [("A", JDict [])] "A" None None 0)
                 (mkWorld None None (fun _ => "1") 0) []) [] [Title "🤖 A"]).
Proof.
  apply (main_area_without_conversation plain_library None (fun _ _ => Llm.Response "")
           None
           (mkDesk (mkApp (mkSession [("A", JDict [])] "A" None None 0)
                          (mkWorld None None (fun _ => "1") 0) []) [] [])).
  reflexivity.
Defined.

(** X17. When the active conversation is a non-empty record without
    ["messages"], the run of the main area ends with an uncaught
    [KeyError] after the title: nothing is displayed or handled, and
    nothing is changed. *)
Theorem main_area_without_messages
    lib API_KEY gemini ctx prompt uploaded_files d record :
  PyDict.get (desk_current_chat d) (desk_conversations d) = Some (JDict record) ->
  record <> [] ->
  PyDict.get "messages" record = None ->
  main_area lib API_KEY gemini ctx prompt uploaded_files d =
  (Failed (Builtin (KeyError "messages")), draw [Title ("🤖 " ++ desk_current_chat d)] d).
Proof.
  intros Hget Hne Hmsgs. destruct d as [[[convs cur share rename key] w msgs] fs els].
  cbn [desk_current_chat desk_conversations app_state session conversations current_chat]
    in Hget.
  unfold main_area. run_desk. rewrite Hget.
  destruct record as [|e record]; [contradiction|]. cbn [truth].
  unfold subscript. rewrite Hmsgs. reflexivity.
Qed.

Lemma main_area_without_messages_witness :
  main_area plain_library None (fun _ _ => Llm.Response "") None (Some "hello") []
    (mkDesk (mkApp (mkSession [("A", JDict [("created_at", JStr "1")])] "A" None None 0)
                   (mkWorld None None (fun _ => "1") 0) []) [] []) =
  (Failed (Builtin (KeyError "messages")),
   mkDesk (mkApp (mkSession [("A", JDict [("created_at", JStr "1")])] "A" None None 0)
                 (mkWorld None None (fun _ => "1") 0) []) [] [Title "🤖 A"]).
Proof.
  apply (main_area_without_messages plain_library None (fun _ _ => Llm.Response "")
           None (Some "hello") []
           (mkDesk (mkApp (mkSession [("A", JDict [("created_at", JStr "1")])] "A"
                                     None None 0)
                          (mkWorld None None (fun _ => "1") 0) []) [] [])
           [("created_at", JStr "1")]).
  - reflexivity.
  - discriminate.
  - reflexivity.
Defined.

(** X18. When every message of the active chat displays, a prompt or an
    upload is handled in the same run: the main area draws the title and
    the messages, appends the new messages as the input code does, saves
    and reruns. The new messages are not drawn in this run. *)
Theorem main_area_handles_input
    lib API_KEY gemini ctx prompt uploaded_files name record items d d1 :
  desk_current_chat d = name ->
  PyDict.get name (desk_conversations d) = Some (JDict record) ->
  PyDict.get "messages" record = Some (JList items) ->
  render_messages lib items (draw [Title ("🤖 " ++ name)] d) = (Done tt, d1) ->
  truthy prompt || nonempty_uploads uploaded_files = true ->
  exists d',
    main_area lib API_KEY gemini ctx prompt uploaded_files d = (Rerunning, d') /\
    PyDict.get name (desk_conversations d') =
      Some (JDict (PyDict.setitem "messages"
                     (JList (items ++ prompt_messages API_KEY gemini prompt ++
                             upload_messages ctx uploaded_files)) record)) /\
    screen d' = screen d1 /\
    (exists drawn, screen d1 = screen d ++ Title ("🤖 " ++ name) :: drawn) /\
    synced (app_state d').
Proof.
  intros Hname Hget Hmsgs Hrender Hsome.
  pose proof (render_messages_draws lib items (draw [Title ("🤖 " ++ name)] d))
    as [Happ [_ [drawn Hscreen]]].
  rewrite Hrender in Happ, Hscreen. cbn [snd draw app_state screen] in Happ, Hscreen.
  assert (Hname1 : desk_current_chat d1 = name).
  { unfold desk_current_chat. rewrite Happ. exact Hname. }
  assert (Hget1 : PyDict.get name (desk_conversations d1) = Some (JDict record)).
  { unfold desk_conversations. rewrite Happ. exact Hget. }
  eexists. split.
  - unfold main_area. unfold sbind at 1, sgets at 1.
    fold (desk_current_chat d). rewrite Hname.
    unfold sbind at 1, emit at 1, smodify at 1.
    unfold sbind at 1, sgets at 1. cbn [app_state].
    fold (desk_conversations d). rewrite Hget.
    assert (Htrue : truth lib (JDict record) = true).
    { destruct record; [discriminate | reflexivity]. }
    rewrite Htrue. unfold sbind at 1, subscript. rewrite Hmsgs. unfold sret at 1.
    unfold sbind at 1. cbn [iterate]. unfold sret at 1.
    unfold sbind at 1. fold (draw [Title ("🤖 " ++ name)] d). rewrite Hrender.
    apply handle_input_run; eassumption.
  - cbv zeta. cbn [desk_conversations app_state session conversations set_conversations
                   screen world].
    split; [unfold with_messages; apply get_setitem_same|].
    split; [reflexivity|].
    split; [exists drawn; rewrite Hscreen, <- app_assoc; reflexivity|].
    reflexivity.
Qed.

Lemma main_area_handles_input_witness :
  exists d',
    main_area plain_library None (fun _ _ => Llm.Response "") None (Some "how?") []
              one_message_desk = (Rerunning, d') /\
    screen d' = [Title "🤖 A"; ChatMessage (JStr "user"); Markdown (JStr "hi")].
Proof.
  destruct (main_area_handles_input plain_library None (fun _ _ => Llm.Response "")
              None (Some "how?") [] "A"
              [("created_at", JStr "1"); ("messages", JList [text_message "user" "hi"])]
              [text_message "user" "hi"] one_message_desk
              (draw [Title "🤖 A"; ChatMessage (JStr "user"); Markdown (JStr "hi")]
                    one_message_desk)
              eq_refl eq_refl eq_refl eq_refl eq_refl)
    as [d' [Hrun [_ [Hscreen _]]]].
  exists d'. split; [exact Hrun | exact Hscreen].
Defined.

Lemma slash_free_prefix s : slash_free s = true -> String.prefix "/" s = false.
Proof.
  destruct s as [|c s]; [reflexivity|]. cbn [slash_free String.prefix].
  intros H. apply andb_prop in H. destruct H as [Hc _].
  destruct (Ascii.ascii_dec "/" c) as [<-|_]; [discriminate | reflexivity].
Qed.

Lemma slash_free_end s : slash_free s = true -> ends_with_slash s = false.
Proof.
  induction s as [|c s IH]; [reflexivity|]. cbn [slash_free ends_with_slash].
  intros H. apply andb_prop in H. destruct H as [Hc Hs].
  destruct s; [destruct (is_slash c); [discriminate | reflexivity] | apply IH, Hs].
Qed.

Lemma ends_with_slash_app a b :
  b <> "" -> ends_with_slash (a ++ b)%string = ends_with_slash b.
Proof.
  intros Hb. induction a as [|c a IH]; [reflexivity|].
  cbn [String.append ends_with_slash]. rewrite IH.
  destruct (a ++ b)%string eqn:E; [|reflexivity].
  destruct a; [cbn in E; contradiction | discriminate].
Qed.

(** The path of an upload when the session id and the file name have no
    slash. *)
Lemma upload_path_plain ctx file :
  slash_free (get_session_id ctx) = true -> get_session_id ctx <> "" ->
  slash_free (file_name file) = true ->
  upload_path ctx file =
  ("uploads/" ++ get_session_id ctx ++ "/" ++ file_name file)%string.
Proof.
  intros Hid Hne Hname. unfold upload_path.
  assert (Hdir : path_join UPLOAD_DIR (get_session_id ctx) =
                 ("uploads/" ++ get_session_id ctx)%string).
  { unfold path_join. rewrite (slash_free_prefix _ Hid). reflexivity. }
  rewrite Hdir. unfold path_join. rewrite (slash_free_prefix _ Hname).
  rewrite ends_with_slash_app by exact Hne. rewrite (slash_free_end _ Hid).
  cbn [String.eqb String.append orb]. reflexivity.
Qed.

Lemma split_at_slash a a' n n' :
  slash_free a = true -> slash_free a' = true ->
  (a ++ "/" ++ n = a' ++ "/" ++ n')%string -> a = a' /\ n = n'.
Proof.
  revert a'. induction a as [|c a IH]; intros [|c' a'] Ha Ha' H;
    cbn [String.append slash_free] in *.
  - injection H as H. auto.
  - exfalso. injection H as Hc _. subst c'. discriminate.
  - exfalso. injection H as Hc _. subst c. discriminate.
  - injection H as Hc H. subst c'.
    apply andb_prop in Ha. apply andb_prop in Ha'.
    destruct (IH a' (proj2 Ha) (proj2 Ha') H) as [-> ->]. auto.
Qed.

(** X19. Uploads are kept apart: when session ids and file names contain
    no slash, every upload is written under "uploads/", and two uploads
    are written to the same path only if they come from the same session
    and have the same name. A file name that starts with a slash is
    written to that very path, outside the upload directory. *)
Theorem upload_paths_are_separate ctx ctx' file file' :
  (slash_free (get_session_id ctx) = true -> get_session_id ctx <> "" ->
   slash_free (file_name file) = true ->
   String.prefix "uploads/" (upload_path ctx file) = true /\
   (slash_free (get_session_id ctx') = true -> get_session_id ctx' <> "" ->
    slash_free (file_name file') = true ->
    upload_path ctx file = upload_path ctx' file' ->
    get_session_id ctx = get_session_id ctx' /\ file_name file = file_name file')) /\
  (String.prefix "/" (file_name file) = true ->
   upload_path ctx file = file_name file).
Proof.
  split.
  - intros Hid Hne Hname. rewrite (upload_path_plain ctx file Hid Hne Hname).
    split; [apply Responder.prefix_append|].
    intros Hid' Hne' Hname' Hsame.
    rewrite (upload_path_plain ctx' file' Hid' Hne' Hname') in Hsame.
    cbn [String.append] in Hsame. injection Hsame as Hsame.
    apply split_at_slash; assumption.
  - intros Habs. unfold upload_path, path_join at 1. rewrite Habs. reflexivity.
Qed.

Lemma upload_paths_are_separate_witness :
  String.prefix "uploads/" (upload_path (Some "s1") notes_txt) = true /\
  upload_path None (mkUploadedFile "/etc/motd" None "x") = "/etc/motd".
Proof.
  split.
  - apply (proj1 (proj1 (upload_paths_are_separate (Some "s1") None notes_txt notes_txt)
                    eq_refl ltac:(discriminate) eq_refl)).
  - apply (proj2 (upload_paths_are_separate None None
                    (mkUploadedFile "/etc/motd" None "x") notes_txt)).
    reflexivity.
Defined.

End MainAreaFacts.
